(** * sync_muk_projects: a shallow embedding of [bin/sync_muk_projects.py]

    The script is sequential glue around external collaborators (LDAP
    lookups, filesystem stats, provisioning methods of the user objects,
    the nagios reporter, the pid lock file).  Every call to a collaborator
    is recorded as an [event]; what the collaborator answers (a value or a
    raised exception) is read from a [world].  Python's exceptions are the
    error half of the [py] monad, so [try]/[except] blocks, unbound names
    and unbound locals can be followed statement by statement. *)

From Stdlib Require Import String List ZArith Bool Lia.
From ExtLib Require Import Structures.Monad Structures.MonadExc.
Import ListNotations.
Import MonadNotation.
Local Open Scope string_scope.
Local Open Scope list_scope.
Local Open Scope monad_scope.

(** ** Module-level constants (lines 38-44) *)

Definition NAGIOS_HEADER : string := "sync_muk_projects".
Definition NAGIOS_CHECK_FILENAME : string :=
  "/var/cache/" ++ NAGIOS_HEADER ++ ".nagios.json.gz".
Definition NAGIOS_CHECK_INTERVAL_THRESHOLD : Z := 24 * 60 * 60.
Definition SYNC_TIMESTAMP_FILENAME : string :=
  "/var/run/" ++ NAGIOS_HEADER ++ ".timestamp".
Definition SYNC_MUK_PROJECTS_LOGFILE : string :=
  "/var/log/" ++ NAGIOS_HEADER ++ ".log".
Definition SYNC_MUK_PROJECTS_LOCKFILE : string :=
  "/gpfs/scratch/user/" ++ NAGIOS_HEADER ++ ".lock".

(** Values of module-level names, as far as the script looks at them:
    string and integer constants, and objects (modules, classes, functions). *)
Inductive pyval : Type :=
| PyStr (s : string)
| PyInt (n : Z)
| PyObj.

(** Every name bound in the module namespace when [main] runs: the imports
    of lines 21-36, the assignments of lines 38-49 and the four [def]s. *)
Definition module_globals : list (string * pyval) :=
  [ ("os", PyObj); ("sys", PyObj); ("Group", PyObj); ("MukUser", PyObj);
    ("Muk", PyObj); ("ANTWERPEN", PyObj); ("BRUSSEL", PyObj); ("GENT", PyObj);
    ("LEUVEN", PyObj); ("VscConfiguration", PyObj); ("CnFilter", PyObj);
    ("InstituteFilter", PyObj); ("LdapFilter", PyObj); ("LdapQuery", PyObj);
    ("convert_timestamp", PyObj); ("write_timestamp", PyObj);
    ("fancylogger", PyObj); ("proceed_on_ha_service", PyObj);
    ("simple_option", PyObj); ("lock_or_bork", PyObj);
    ("release_or_bork", PyObj); ("NagiosReporter", PyObj);
    ("NagiosResult", PyObj); ("NAGIOS_EXIT_OK", PyObj);
    ("NAGIOS_EXIT_CRITICAL", PyObj); ("NAGIOS_EXIT_WARNING", PyObj);
    ("TimestampedPidLockfile", PyObj);
    ("NAGIOS_HEADER", PyStr NAGIOS_HEADER);
    ("NAGIOS_CHECK_FILENAME", PyStr NAGIOS_CHECK_FILENAME);
    ("NAGIOS_CHECK_INTERVAL_THRESHOLD", PyInt NAGIOS_CHECK_INTERVAL_THRESHOLD);
    ("SYNC_TIMESTAMP_FILENAME", PyStr SYNC_TIMESTAMP_FILENAME);
    ("SYNC_MUK_PROJECTS_LOGFILE", PyStr SYNC_MUK_PROJECTS_LOGFILE);
    ("SYNC_MUK_PROJECTS_LOCKFILE", PyStr SYNC_MUK_PROJECTS_LOCKFILE);
    ("logger", PyObj); ("process_institute", PyObj); ("process", PyObj);
    ("force_nfs_mounts", PyObj); ("main", PyObj) ].

(** ** Exceptions and exit statuses *)

(** [vsc.utils.nagios] exports the three exit constants; their values are
    not in this file, so they stay symbolic. *)
Inductive nagios_exit : Type :=
| NAGIOS_EXIT_OK
| NAGIOS_EXIT_WARNING
| NAGIOS_EXIT_CRITICAL.

(** The argument of [sys.exit]: a literal integer or one of the constants. *)
Inductive exit_arg : Type :=
| ExitInt (n : Z)
| ExitNagios (c : nagios_exit).

Inductive exn : Type :=
| IndexError
| KeyError (key : string)
| NameError (name : string)
| UnboundLocalError (name : string)
| OSError
| LdapError
| PlainException          (* a plain [Exception(message)] *)
| KeyboardInterrupt
| SystemExit (code : exit_arg).

(** [except Exception:] catches the subclasses of [Exception]; a bare
    [except:] catches everything. *)
Definition is_Exception (e : exn) : bool :=
  match e with
  | KeyboardInterrupt | SystemExit _ => false
  | _ => true
  end.

Definition is_IndexError (e : exn) : bool :=
  match e with IndexError => true | _ => false end.

Definition bare_except (e : exn) : bool := true.

(** What a call may do: hand back a value or raise. *)
Inductive outcome (A : Type) : Type :=
| Returns (a : A)
| Raises (e : exn).
Arguments Returns {A} a.
Arguments Raises {A} e.

(** ** Data model *)

Inductive institute : Type := ANTWERPEN | BRUSSEL | GENT | LEUVEN.

Definition institute_eqb (a b : institute) : bool :=
  match a, b with
  | ANTWERPEN, ANTWERPEN | BRUSSEL, BRUSSEL | GENT, GENT | LEUVEN, LEUVEN => true
  | _, _ => false
  end.

Definition institute_name (i : institute) : string :=
  match i with
  | ANTWERPEN => "antwerpen" | BRUSSEL => "brussel"
  | GENT => "gent" | LEUVEN => "leuven"
  end.

Inductive LdapFilter : Type :=
| CnFilter (cn : string)
| InstituteFilter (i : institute)
| OtherFilter (expr : string)
| AndFilter (f g : LdapFilter).   (* [f & g] *)

Inductive step : Type :=
| create_scratch_fileset
| populate_scratch_fallback
| create_home_dir.

(** A user object as [process] sees it: an id, the mutable [dry_run]
    attribute, and three methods whose outcome may depend on that flag. *)
Record MukUser : Type := mkMukUser {
  user_id : string;
  dry_run : bool;
  run_step : step -> bool -> outcome unit
}.

Definition set_dry_run (u : MukUser) : MukUser :=
  mkMukUser (user_id u) true (run_step u).

Record Group : Type := mkGroup {
  autogroup : string;
  memberUid : list string
}.

(** The [Muk()] singleton: only the attributes the script reads. *)
Record Muk : Type := mkMuk {
  institutes : list institute;
  nfs_link_pathnames : list (institute * list (string * string));
  muk_project_group : string;
  muk_user_group : string
}.

Record NagiosResult : Type := mkNagiosResult {
  message : string;
  metrics : list (string * nat)
}.

Definition set_message (m : string) (r : NagiosResult) : NagiosResult :=
  mkNagiosResult m (metrics r).

(** The option object returned by [simple_option] (lines 129-137). *)
Record options : Type := mkOptions {
  opt_dry_run : bool;
  opt_nagios : bool;
  opt_ha : option string
}.

(** The dictionary [process_institute] returns. *)
Record counts : Type := mkCounts { ok : Z; fail : Z }.

(** ** Events *)

Inductive loglevel : Type := INFO | WARNING | EXCEPTION.

(** One constructor per logging call of the script, with the values that
    are formatted into the message. *)
Inductive logmsg : Type :=
| Processing_users (i : institute) (ids : list string)      (* line 56 *)
| Checking_link (path : string)                             (* line 61 *)
| Went_wrong_processing (i : institute)                     (* line 66 *)
| Cannot_process_institute (i : institute)                  (* line 68 *)
| Cannot_process_user (id : string)                         (* line 97 *)
| Not_performing_any_action (i : institute)                 (* line 107 *)
| Cannot_stat_not_adding (path : string)                    (* line 113 *)
| Starting_synchronisation                                  (* line 145 *)
| Not_on_target_host                                        (* line 148 *)
| Muk_projects (auto : string)                              (* line 167 *)
| Could_not_find_group (cn : string)                        (* line 169 *)
| Fail_during_synchronisation                               (* line 183 *)
| Broke_writing_timestamp                                   (* line 208 *)
| Finished_synchronisation.                                 (* line 215 *)

Inductive event : Type :=
| EvLog (lvl : loglevel) (msg : logmsg)
| EvReportAndExit
| EvCache (code : nagios_exit) (result : NagiosResult)
| EvLockOrBork (path : string)
| EvLockfileRelease (path : string)
| EvReleaseOrBork (path : string) (result : NagiosResult)
| EvLdapQuery
| EvGroupLookup (f : LdapFilter)
| EvMukUserLookup (f : LdapFilter)
| EvStat (path : string)
| EvProvision (s : step) (id : string) (dry : bool)
| EvWriteTimestamp (filename : string) (ts : string).

(** ** The world: answers of the collaborators

    Calls whose failure the script handles, or whose very purpose is to end
    the process, take their outcome from the world.  Logging, the
    construction of filters and nagios results, [nagios_reporter.cache] and
    [convert_timestamp()] (which only reads the clock) always return. *)
Record world : Type := mkWorld {
  the_muk : Muk;
  report_and_exit : outcome unit;
  proceed_on_ha_service : option string -> bool;
  lock_or_bork : outcome unit;
  LdapQuery : outcome unit;
  Group_lookup : LdapFilter -> outcome (list Group);
  MukUser_lookup : LdapFilter -> outcome (list MukUser);
  os_stat : string -> outcome unit;
  convert_timestamp : string;
  write_timestamp : string -> string -> outcome unit;
  lockfile_release : outcome unit;
  release_or_bork : outcome unit
}.

(** ** The monad of traces and exceptions *)

Definition py (A : Type) : Type := (list event * outcome A)%type.

Definition py_ret {A} (a : A) : py A := ([], Returns a).

Definition py_bind {A B} (m : py A) (f : A -> py B) : py B :=
  match m with
  | (t, Returns a) => let (t', r) := f a in (t ++ t', r)
  | (t, Raises e) => (t, Raises e)
  end.

#[global] Instance Monad_py : Monad py :=
  {| ret := @py_ret; bind := @py_bind |}.

Definition py_raise {A} (e : exn) : py A := ([], Raises e).

(** [try: m except <handles>: h] *)
Definition try_except {A} (m : py A) (handles : exn -> bool)
    (h : exn -> py A) : py A :=
  match m with
  | (t, Raises e) =>
      if handles e then let (t', r) := h e in (t ++ t', r) else (t, Raises e)
  | _ => m
  end.

#[global] Instance MonadExc_py : MonadExc exn py :=
  {| raise := @py_raise; catch := fun A m h => try_except m bare_except h |}.

Definition trace {A} (m : py A) : list event := fst m.
Definition result {A} (m : py A) : outcome A := snd m.

(** A call to a collaborator: the event, then the world's answer. *)
Definition call {A} (ev : event) (o : outcome A) : py A := ([ev], o).

Definition emit (ev : event) : py unit := ([ev], Returns tt).

Definition log (lvl : loglevel) (msg : logmsg) : py unit := emit (EvLog lvl msg).

Definition sys_exit {A} (code : exit_arg) : py A := raise (SystemExit code).

(** [d[key]] on a dictionary kept as an association list. *)
Fixpoint assoc {K V} (eqb : K -> K -> bool) (k : K) (d : list (K * V)) : option V :=
  match d with
  | [] => None
  | (k', v) :: d' => if eqb k k' then Some v else assoc eqb k d'
  end.

(** Reading a global name: NameError unless the module binds it. *)
Definition load_global (name : string) : py pyval :=
  match assoc String.eqb name module_globals with
  | Some v => ret v
  | None => raise (NameError name)
  end.

(** What [str.format] prints for a value. *)
Definition format_value (v : pyval) : string :=
  match v with
  | PyStr s => s
  | PyInt _ => "<int>"
  | PyObj => "<object>"
  end.

(** [muk.nfs_link_pathnames[institute]['home']] *)
Definition nfs_home (muk : Muk) (i : institute) : py string :=
  match assoc institute_eqb i (nfs_link_pathnames muk) with
  | None => raise (KeyError (institute_name i))
  | Some d =>
      match assoc String.eqb "home" d with
      | None => raise (KeyError "home")
      | Some p => ret p
      end
  end.

(** ** [process] (lines 79-100) *)

Definition do_step (u : MukUser) (s : step) : py unit :=
  call (EvProvision s (user_id u) (dry_run u)) (run_step u s (dry_run u)).

(** The body of the [for] loop for one user, threading [error_users]. *)
Definition process_user (opts : options) (user : MukUser)
    (error_users : list MukUser) : py (list MukUser) :=
  let user := if opt_dry_run opts then set_dry_run user else user in
  try_except
    (do_step user create_scratch_fileset ;;
     do_step user populate_scratch_fallback ;;
     do_step user create_home_dir ;;
     ret error_users)
    bare_except
    (fun _ =>
       log EXCEPTION (Cannot_process_user (user_id user)) ;;
       ret (error_users ++ [user])).

Fixpoint process_loop (opts : options) (users : list MukUser)
    (error_users : list MukUser) : py (list MukUser) :=
  match users with
  | [] => ret error_users
  | user :: rest =>
      error_users' <- process_user opts user error_users ;;
      process_loop opts rest error_users'
  end.

Definition process (opts : options) (users : list MukUser) : py (list MukUser) :=
  process_loop opts users [].

(** ** [process_institute] (lines 52-76)

    [process] is a module global, looked up when the call is made; the
    function is first written over whatever that name denotes and then
    closed with the [process] of this file.  The local [error_users] is an
    [option]: [None] while no assignment has run. *)
Section ProcessInstitute.

Variable process_fn : options -> list MukUser -> py (list MukUser).

Definition process_institute_with (w : world) (opts : options)
    (inst : institute) (users_filter : LdapFilter) : py counts :=
  let muk := the_muk w in
  let f := AndFilter users_filter (InstituteFilter inst) in
  changed_users <- call (EvMukUserLookup f) (MukUser_lookup w f) ;;
  log INFO (Processing_users inst (map user_id changed_users)) ;;
  error_users <-
    try_except
      (nfs_location <- nfs_home muk inst ;;
       log INFO (Checking_link nfs_location) ;;
       call (EvStat nfs_location) (os_stat w nfs_location) ;;
       try_except
         (eu <- process_fn opts changed_users ;; ret (Some eu))
         bare_except
         (fun _ => log EXCEPTION (Went_wrong_processing inst) ;; ret None))
      bare_except
      (fun _ =>
         log EXCEPTION (Cannot_process_institute inst) ;;
         ret (Some changed_users)) ;;
  match error_users with
  | None => raise (UnboundLocalError "error_users")
  | Some eu =>
      let fail_usercount := Z.of_nat (length eu) in
      let ok_usercount := (Z.of_nat (length changed_users) - fail_usercount)%Z in
      ret (mkCounts ok_usercount fail_usercount)
  end.

End ProcessInstitute.

Definition process_institute : world -> options -> institute -> LdapFilter -> py counts :=
  process_institute_with process.

(** ** [force_nfs_mounts] (lines 102-115) *)

Fixpoint force_nfs_mounts_loop (w : world) (muk : Muk) (todo : list institute)
    (nfs_mounts : list institute) : py (list institute) :=
  match todo with
  | [] => ret nfs_mounts
  | inst :: rest =>
      if institute_eqb inst BRUSSEL then
        log WARNING (Not_performing_any_action BRUSSEL) ;;
        force_nfs_mounts_loop w muk rest nfs_mounts
      else
        nfs_mounts' <-
          try_except
            (p <- nfs_home muk inst ;;
             call (EvStat p) (os_stat w p) ;;
             ret (nfs_mounts ++ [inst]))
            bare_except
            (fun _ =>
               p <- nfs_home muk inst ;;
               log EXCEPTION (Cannot_stat_not_adding p) ;;
               ret nfs_mounts) ;;
        force_nfs_mounts_loop w muk rest nfs_mounts'
  end.

Definition force_nfs_mounts (w : world) (muk : Muk) : py (list institute) :=
  force_nfs_mounts_loop w muk (institutes muk) [].

(** ** [main] (lines 118-215)

    Line 171 calls [MukProject] and line 177 calls [process_project].  What
    such calls would do once the names are resolved is left open (the
    section variables); resolving the names goes through [load_global]. *)
Section Main.

Variable project : Type.
Variable MukProject : string -> py project.
Variable process_project : options -> project -> py bool.

(** Line 171: [[MukProject(project_id) for project_id in muk_group.memberUid]] *)
Fixpoint build_projects (ids : list string) : py (list project) :=
  match ids with
  | [] => ret []
  | project_id :: rest =>
      load_global "MukProject" ;;
      p <- MukProject project_id ;;
      ps <- build_projects rest ;;
      ret (p :: ps)
  end.

(** Lines 173-180, threading the two counters (they start at 0 and only
    ever grow by one, hence [nat]; [projects_fail > 0] is [Nat.ltb 0 projects_fail]). *)
Fixpoint projects_loop (opts : options) (muk_projects : list project)
    (projects_ok projects_fail : nat) : py (nat * nat) :=
  match muk_projects with
  | [] => ret (projects_ok, projects_fail)
  | p :: rest =>
      load_global "process_project" ;;
      b <- process_project opts p ;;
      if (b : bool) then projects_loop opts rest (projects_ok + 1) projects_fail
      else projects_loop opts rest projects_ok (projects_fail + 1)
  end.

(** Lines 141-154: the nagios branch, the HA gate, the lock. *)
Definition main_prologue (w : world) (opts : options) : py unit :=
  (if opt_nagios opts then
     call EvReportAndExit (report_and_exit w) ;;
     sys_exit (ExitInt 0)
   else ret tt) ;;
  log INFO Starting_synchronisation ;;
  (if negb (proceed_on_ha_service w (opt_ha opts)) then
     log WARNING Not_on_target_host ;;
     emit (EvCache NAGIOS_EXIT_WARNING
             (mkNagiosResult "Not running on the HA master." [])) ;;
     sys_exit (ExitNagios NAGIOS_EXIT_WARNING)
   else ret tt) ;;
  call (EvLockOrBork SYNC_MUK_PROJECTS_LOCKFILE) (lock_or_bork w).

(** Lines 157-180: the body of the [try]. *)
Definition main_try_body (w : world) (opts : options) : py (nat * nat) :=
  let muk := the_muk w in
  call EvLdapQuery (LdapQuery w) ;;
  let muk_project_group_filter := CnFilter (muk_project_group muk) in
  muk_group <-
    try_except
      (groups <- call (EvGroupLookup muk_project_group_filter)
                      (Group_lookup w muk_project_group_filter) ;;
       g <- match groups with
            | [] => raise IndexError
            | g :: _ => ret g
            end ;;
       log INFO (Muk_projects (autogroup g)) ;;
       ret g)
      is_IndexError
      (fun _ =>
         (* raiseException logs a warning and raises the exception being
            handled again, with the message *)
         log WARNING (Could_not_find_group (muk_user_group muk)) ;;
         raise IndexError) ;;
  muk_projects <- build_projects (memberUid muk_group) ;;
  projects_loop opts muk_projects 0 0.

(** Lines 182-188: the handler of [except Exception]. *)
Definition main_except (w : world) : py (nat * nat) :=
  log EXCEPTION Fail_during_synchronisation ;;
  logfile <- load_global "SYNC_MUK_USERS_LOGFILE" ;;
  emit (EvCache NAGIOS_EXIT_CRITICAL
          (mkNagiosResult
             ("Script failed, check log file (" ++ format_value logfile ++ ")")
             [])) ;;
  call (EvLockfileRelease SYNC_MUK_PROJECTS_LOCKFILE) (lockfile_release w) ;;
  sys_exit (ExitNagios NAGIOS_EXIT_CRITICAL).

(** Lines 156-188. *)
Definition main_try (w : world) (opts : options) : py (nat * nat) :=
  try_except (main_try_body w opts) is_Exception (fun _ => main_except w).

(** Lines 190-195. *)
Definition result_dict (projects_ok projects_fail : nat) : list (string * nat) :=
  [ ("projects_ok", projects_ok); ("projects_fail", projects_fail);
    ("projects_fail_warning", 1); ("projects_fail_critical", 3) ].

(** Lines 190-215: outcome evaluation, timestamp, lock release. *)
Definition main_outcome (w : world) (opts : options)
    (projects_ok projects_fail : nat) : py unit :=
  let result_dict := result_dict projects_ok projects_fail in
  result <-
    (if Nat.ltb 0 projects_fail then
       let result := mkNagiosResult "several projects were not synched" result_dict in
       emit (EvCache NAGIOS_EXIT_WARNING result) ;;
       ret result
     else
       let result := mkNagiosResult "muk projects synchronised" result_dict in
       try_except
         (let ldap_timestamp := convert_timestamp w in
          (if negb (opt_dry_run opts) then
             call (EvWriteTimestamp SYNC_TIMESTAMP_FILENAME ldap_timestamp)
                  (write_timestamp w SYNC_TIMESTAMP_FILENAME ldap_timestamp)
           else ret tt) ;;
          emit (EvCache NAGIOS_EXIT_OK result) ;;
          ret result)
         bare_except
         (fun _ =>
            log EXCEPTION Broke_writing_timestamp ;;
            let result :=
              set_message "muk projects synchronised, filestamp not written" result in
            emit (EvCache NAGIOS_EXIT_WARNING result) ;;
            ret result)) ;;
  let result := set_message "muk projects synchronised, lock release failed" result in
  call (EvReleaseOrBork SYNC_MUK_PROJECTS_LOCKFILE result) (release_or_bork w) ;;
  log INFO Finished_synchronisation.

Definition main (w : world) (opts : options) : py unit :=
  main_prologue w opts ;;
  '(projects_ok, projects_fail) <- main_try w opts ;;
  main_outcome w opts projects_ok projects_fail.

End Main.

(** How the interpreter ends once [main()] is over (lines 218-219). *)
Inductive termination : Type :=
| Exit_normally                    (* [main] returned: status 0 *)
| Exit_with (code : exit_arg)      (* [sys.exit(code)] reached the top *)
| Uncaught (e : exn).              (* traceback *)

Definition terminate (o : outcome unit) : termination :=
  match o with
  | Returns _ => Exit_normally
  | Raises (SystemExit c) => Exit_with c
  | Raises e => Uncaught e
  end.

(** ** Observations on traces *)

Definition is_lookup (e : event) : bool :=
  match e with EvMukUserLookup _ => true | _ => false end.

Definition is_mount_check (e : event) : bool :=
  match e with EvStat _ => true | _ => false end.

Definition is_provision (e : event) : bool :=
  match e with EvProvision _ _ _ => true | _ => false end.

Definition is_lock_release (e : event) : bool :=
  match e with EvLockfileRelease _ | EvReleaseOrBork _ _ => true | _ => false end.

Definition is_lock_acquire (e : event) : bool :=
  match e with EvLockOrBork _ => true | _ => false end.

Definition is_cache (e : event) : bool :=
  match e with EvCache _ _ => true | _ => false end.

Definition is_cache_of (c : nagios_exit) (e : event) : bool :=
  match e, c with
  | EvCache NAGIOS_EXIT_OK _, NAGIOS_EXIT_OK
  | EvCache NAGIOS_EXIT_WARNING _, NAGIOS_EXIT_WARNING
  | EvCache NAGIOS_EXIT_CRITICAL _, NAGIOS_EXIT_CRITICAL => true
  | _, _ => false
  end.

Definition is_timestamp_write (e : event) : bool :=
  match e with EvWriteTimestamp _ _ => true | _ => false end.

Definition is_directory_lookup (e : event) : bool :=
  match e with
  | EvLdapQuery | EvGroupLookup _ | EvMukUserLookup _ => true
  | _ => false
  end.

Definition is_brussel_warning (e : event) : bool :=
  match e with
  | EvLog WARNING (Not_performing_any_action BRUSSEL) => true
  | _ => false
  end.

(** Events that touch persisted state: the report cache, the timestamp
    file, the lock file. *)
Definition is_mutation (e : event) : bool :=
  is_cache e || is_timestamp_write e || is_lock_acquire e || is_lock_release e.

(** Events of per-institute work: the user query, the mount check, a
    provisioning call. *)
Definition is_institute_work (e : event) : bool :=
  is_lookup e || is_mount_check e || is_provision e.

Definition count (P : event -> bool) (t : list event) : nat :=
  length (filter P t).

Definition never (P : event -> bool) (t : list event) : Prop :=
  forallb (fun e => negb (P e)) t = true.

(** [precedes_from seen P Q t]: every [Q] event of [t] comes after some [P]
    event ([seen] says whether one happened before [t] starts). *)
Fixpoint precedes_from (seen : bool) (P Q : event -> bool) (t : list event) : bool :=
  match t with
  | [] => true
  | e :: t' => (if Q e then seen else true) && precedes_from (seen || P e) P Q t'
  end.

Definition precedes (P Q : event -> bool) (t : list event) : bool :=
  precedes_from false P Q t.

(** ** The provisioning contract, in closed form *)

Definition provisioning_order : list step :=
  [create_scratch_fileset; populate_scratch_fallback; create_home_dir].

Definition step_raises (u : MukUser) (s : step) : bool :=
  match run_step u s (dry_run u) with
  | Raises _ => true
  | Returns _ => false
  end.

(** The steps of [l] that get invoked: all up to and including the first
    one that raises. *)
Fixpoint up_to_first_raise (u : MukUser) (l : list step) : list step :=
  match l with
  | [] => []
  | s :: l' => s :: (if step_raises u s then [] else up_to_first_raise u l')
  end.

Definition steps_invoked (u : MukUser) : list step :=
  up_to_first_raise u provisioning_order.

Definition entity_fails (u : MukUser) : bool :=
  existsb (step_raises u) provisioning_order.

Definition entity_trace (u : MukUser) : list event :=
  map (fun s => EvProvision s (user_id u) (dry_run u)) (steps_invoked u)
  ++ (if entity_fails u
      then [EvLog EXCEPTION (Cannot_process_user (user_id u))]
      else []).

(** The user object after line 90-91. *)
Definition with_dry_run (opts : options) (u : MukUser) : MukUser :=
  if opt_dry_run opts then set_dry_run u else u.

(** ** Sample worlds *)

Definition step_eqb (a b : step) : bool :=
  match a, b with
  | create_scratch_fileset, create_scratch_fileset
  | populate_scratch_fallback, populate_scratch_fallback
  | create_home_dir, create_home_dir => true
  | _, _ => false
  end.

Definition good_user (id : string) : MukUser :=
  mkMukUser id false (fun _ _ => Returns tt).

Definition bad_user (id : string) (failing : step) : MukUser :=
  mkMukUser id false
    (fun s _ => if step_eqb s failing then Raises OSError else Returns tt).

Definition sample_muk : Muk :=
  mkMuk [ANTWERPEN; BRUSSEL; GENT; LEUVEN]
        [ (ANTWERPEN, [("home", "/nfs/antwerpen/home")]);
          (BRUSSEL, [("home", "/nfs/brussel/home")]);
          (GENT, [("home", "/nfs/gent/home")]);
          (LEUVEN, [("home", "/nfs/leuven/home")]) ]
        "muk_projects" "muk_users".

Definition sample_users : list MukUser :=
  [good_user "vsc40001"; bad_user "vsc40002" populate_scratch_fallback;
   good_user "vsc40003"].

(** Everything answers; the project group exists and has no member. *)
Definition quiet_world : world :=
  mkWorld sample_muk
          (Raises (SystemExit (ExitInt 0)))
          (fun _ => true)
          (Returns tt)
          (Returns tt)
          (fun _ => Returns [mkGroup "muk_projects" []])
          (fun _ => Returns sample_users)
          (fun _ => Returns tt)
          "20130101000000Z"
          (fun _ _ => Returns tt)
          (Returns tt)
          (Returns tt).

Definition with_stat (w : world) (st : string -> outcome unit) : world :=
  mkWorld (the_muk w) (report_and_exit w) (proceed_on_ha_service w)
          (lock_or_bork w) (LdapQuery w) (Group_lookup w) (MukUser_lookup w)
          st (convert_timestamp w) (write_timestamp w) (lockfile_release w)
          (release_or_bork w).

Definition with_user_lookup (w : world)
    (lk : LdapFilter -> outcome (list MukUser)) : world :=
  mkWorld (the_muk w) (report_and_exit w) (proceed_on_ha_service w)
          (lock_or_bork w) (LdapQuery w) (Group_lookup w) lk
          (os_stat w) (convert_timestamp w) (write_timestamp w)
          (lockfile_release w) (release_or_bork w).

Definition with_group_lookup (w : world)
    (lk : LdapFilter -> outcome (list Group)) : world :=
  mkWorld (the_muk w) (report_and_exit w) (proceed_on_ha_service w)
          (lock_or_bork w) (LdapQuery w) lk (MukUser_lookup w)
          (os_stat w) (convert_timestamp w) (write_timestamp w)
          (lockfile_release w) (release_or_bork w).

Definition with_report_and_exit (w : world) (o : outcome unit) : world :=
  mkWorld (the_muk w) o (proceed_on_ha_service w)
          (lock_or_bork w) (LdapQuery w) (Group_lookup w) (MukUser_lookup w)
          (os_stat w) (convert_timestamp w) (write_timestamp w)
          (lockfile_release w) (release_or_bork w).

Definition with_write_timestamp (w : world)
    (wr : string -> string -> outcome unit) : world :=
  mkWorld (the_muk w) (report_and_exit w) (proceed_on_ha_service w)
          (lock_or_bork w) (LdapQuery w) (Group_lookup w) (MukUser_lookup w)
          (os_stat w) (convert_timestamp w) wr (lockfile_release w)
          (release_or_bork w).

Definition plain_options : options := mkOptions false false None.
Definition nagios_options : options := mkOptions false true None.
Definition users_filter : LdapFilter := OtherFilter "modifyTimestamp>=20121231".



(** Stand-ins for what lines 171 and 177 would call. *)
Definition no_project (project_id : string) : py unit := ret tt.
Definition no_process_project (opts : options) (p : unit) : py bool := ret true.

(** The project group cannot be found: [Group.lookup] answers []. *)
Definition no_group_world : world :=
  with_group_lookup quiet_world (fun _ => Returns []).

(** The project group has two members. *)
Definition two_projects_world : world :=
  with_group_lookup quiet_world
    (fun _ => Returns [mkGroup "muk_projects" ["project1"; "project2"]]).

(** The configuration with the excluded institute taken out of the list. *)
Definition without_brussel (muk : Muk) : Muk :=
  mkMuk (filter (fun i => negb (institute_eqb i BRUSSEL)) (institutes muk))
        (nfs_link_pathnames muk) (muk_project_group muk) (muk_user_group muk).

(** What the [try] body does, read off the answers of the world. *)
Definition main_try_body_table (w : world) : py (nat * nat) :=
  let q := CnFilter (muk_project_group (the_muk w)) in
  let not_found := EvLog WARNING (Could_not_find_group (muk_user_group (the_muk w))) in
  match LdapQuery w with
  | Raises e => ([EvLdapQuery], Raises e)
  | Returns _ =>
      match Group_lookup w q with
      | Raises e =>
          if is_IndexError e
          then ([EvLdapQuery; EvGroupLookup q; not_found], Raises IndexError)
          else ([EvLdapQuery; EvGroupLookup q], Raises e)
      | Returns [] =>
          ([EvLdapQuery; EvGroupLookup q; not_found], Raises IndexError)
      | Returns (g :: _) =>
          ([EvLdapQuery; EvGroupLookup q; EvLog INFO (Muk_projects (autogroup g))],
           match memberUid g with
           | [] => Returns (0, 0)
           | _ :: _ => Raises (NameError "MukProject")
           end)
      end
  end.

(** ** Statements of the specification, as it words them *)

(** "The designated excluded institute is never queried or processed",
    read on [process_institute] given that institute. *)
Definition brussel_left_alone (w : world) (opts : options) (f : LdapFilter) : Prop :=
  let t := trace (process_institute w opts BRUSSEL f) in
  never is_lookup t /\ never is_provision t.


(** "The mount reachability check for an institute happens before that
    institute's entity lookup query, and before any entity of that
    institute is provisioned." *)
Definition mount_check_comes_first (t : list event) : Prop :=
  precedes is_mount_check is_lookup t = true
  /\ precedes is_mount_check is_provision t = true.

(** "If the lookup itself fails ... all its entities [are] marked failed"
    in the returned counts. *)
Definition lookup_failure_returns_counts (w : world) (opts : options)
    (inst : institute) (f : LdapFilter) : Prop :=
  exists c, result (process_institute w opts inst f) = Returns c /\ ok c = 0%Z.

(** "[--nagios] ... only cached-report emission, exit code 0." *)
Definition nagios_run_exits_zero (w : world) (opts : options) : Prop :=
  let m := main unit no_project no_process_project w opts in
  trace m = [EvReportAndExit] /\ terminate (result m) = Exit_with (ExitInt 0).

(** ** More observations and sample worlds *)

(** Work that the lock is meant to protect: directory queries, the
    timestamp file, the release of the lock itself. *)
Definition is_guarded (e : event) : bool :=
  is_directory_lookup e || is_timestamp_write e || is_lock_release e.

Definition is_log (e : event) : bool :=
  match e with EvLog _ _ => true | _ => false end.

Definition stat_returns (w : world) (p : string) : bool :=
  match os_stat w p with Returns _ => true | Raises _ => false end.

Definition write_returns (w : world) : bool :=
  match write_timestamp w SYNC_TIMESTAMP_FILENAME (convert_timestamp w) with
  | Returns _ => true
  | Raises _ => false
  end.

(** An institute that [force_nfs_mounts] keeps: not the excluded one, with
    a home link in the table whose stat returns. *)
Definition mount_kept (w : world) (muk : Muk) (i : institute) : bool :=
  negb (institute_eqb i BRUSSEL)
  && match result (nfs_home muk i) with
     | Returns p => stat_returns w p
     | Raises _ => false
     end.

Definition with_muk (w : world) (muk : Muk) : world :=
  mkWorld muk (report_and_exit w) (proceed_on_ha_service w)
          (lock_or_bork w) (LdapQuery w) (Group_lookup w) (MukUser_lookup w)
          (os_stat w) (convert_timestamp w) (write_timestamp w)
          (lockfile_release w) (release_or_bork w).

Definition with_proceed (w : world) (ha : option string -> bool) : world :=
  mkWorld (the_muk w) (report_and_exit w) ha
          (lock_or_bork w) (LdapQuery w) (Group_lookup w) (MukUser_lookup w)
          (os_stat w) (convert_timestamp w) (write_timestamp w)
          (lockfile_release w) (release_or_bork w).

Definition with_LdapQuery (w : world) (o : outcome unit) : world :=
  mkWorld (the_muk w) (report_and_exit w) (proceed_on_ha_service w)
          (lock_or_bork w) o (Group_lookup w) (MukUser_lookup w)
          (os_stat w) (convert_timestamp w) (write_timestamp w)
          (lockfile_release w) (release_or_bork w).

(** The path table has lost its entry for LEUVEN. *)
Definition muk_without_leuven_link : Muk :=
  mkMuk [ANTWERPEN; BRUSSEL; GENT; LEUVEN]
        [ (ANTWERPEN, [("home", "/nfs/antwerpen/home")]);
          (BRUSSEL, [("home", "/nfs/brussel/home")]);
          (GENT, [("home", "/nfs/gent/home")]) ]
        "muk_projects" "muk_users".

(** Only the link of GENT cannot be stat'ed. *)
Definition gent_down_world : world :=
  with_stat quiet_world
    (fun p => if String.eqb p "/nfs/gent/home" then Raises OSError else Returns tt).

(** * Properties *)

(** ** Generic facts about [py] and traces *)

Lemma bind_returns {A B} (t : list event) (a : A) (f : A -> py B) :
  bind ((t, Returns a) : py A) f = (t ++ trace (f a), result (f a)).
Proof. simpl. unfold py_bind. destruct (f a); reflexivity. Qed.

Lemma py_eta {A} (m : py A) : m = (trace m, result m).
Proof. destruct m; reflexivity. Qed.

Lemma count_app P t1 t2 : count P (t1 ++ t2) = count P t1 + count P t2.
Proof. unfold count. rewrite filter_app, length_app. reflexivity. Qed.

Lemma never_app P t1 t2 : never P (t1 ++ t2) <-> never P t1 /\ never P t2.
Proof. unfold never. rewrite forallb_app, andb_true_iff. tauto. Qed.

Lemma never_count P t : never P t <-> count P t = 0.
Proof.
  unfold never, count. induction t as [|e t IH]; simpl.
  - tauto.
  - destruct (P e); simpl.
    + split; intro H; discriminate H.
    + exact IH.
Qed.

Lemma never_In P t : never P t <-> (forall e, In e t -> P e = false).
Proof.
  unfold never. rewrite forallb_forall. split; intros H e He.
  - apply negb_true_iff. auto.
  - apply negb_true_iff. auto.
Qed.

Lemma precedes_from_seen P Q t : precedes_from true P Q t = true.
Proof.
  induction t as [|e t IH]; simpl; [reflexivity|].
  rewrite IH. destruct (Q e); reflexivity.
Qed.

Lemma precedes_from_app seen P Q t1 t2 :
  precedes_from seen P Q (t1 ++ t2)
  = precedes_from seen P Q t1
    && precedes_from (seen || existsb P t1) P Q t2.
Proof.
  revert seen. induction t1 as [|e t1 IH]; intro seen; simpl.
  - rewrite orb_false_r. reflexivity.
  - rewrite IH, orb_assoc, andb_assoc. reflexivity.
Qed.

Lemma precedes_from_never seen P Q t : never Q t -> precedes_from seen P Q t = true.
Proof.
  unfold never. revert seen. induction t as [|e t IH]; intros seen H; simpl in *.
  - reflexivity.
  - apply andb_true_iff in H. destruct H as [Hq Ht].
    apply negb_true_iff in Hq. rewrite Hq. simpl. auto.
Qed.

(** ** Two runs of [process_institute], evaluated *)

(** GENT: three changed users, the second fails at its second step. *)
Example process_institute_gent :
  process_institute quiet_world plain_options GENT users_filter
  = ([EvMukUserLookup (AndFilter users_filter (InstituteFilter GENT));
      EvLog INFO (Processing_users GENT ["vsc40001"; "vsc40002"; "vsc40003"]);
      EvLog INFO (Checking_link "/nfs/gent/home");
      EvStat "/nfs/gent/home";
      EvProvision create_scratch_fileset "vsc40001" false;
      EvProvision populate_scratch_fallback "vsc40001" false;
      EvProvision create_home_dir "vsc40001" false;
      EvProvision create_scratch_fileset "vsc40002" false;
      EvProvision populate_scratch_fallback "vsc40002" false;
      EvLog EXCEPTION (Cannot_process_user "vsc40002");
      EvProvision create_scratch_fileset "vsc40003" false;
      EvProvision populate_scratch_fallback "vsc40003" false;
      EvProvision create_home_dir "vsc40003" false],
     Returns (mkCounts 2 1)).
Proof. reflexivity. Qed.

(** The same with [--dry-run]: the flag is set on each user before its
    steps run. *)
Example process_dry_run :
  trace (process (mkOptions true false None) [good_user "vsc40001"])
  = [EvProvision create_scratch_fileset "vsc40001" true;
     EvProvision populate_scratch_fallback "vsc40001" true;
     EvProvision create_home_dir "vsc40001" true].
Proof. reflexivity. Qed.

(** A run of [main] in which everything answers and the group is empty. *)
Example main_quiet_run :
  main unit no_project no_process_project quiet_world plain_options
  = ([EvLog INFO Starting_synchronisation;
      EvLockOrBork SYNC_MUK_PROJECTS_LOCKFILE;
      EvLdapQuery;
      EvGroupLookup (CnFilter "muk_projects");
      EvLog INFO (Muk_projects "muk_projects");
      EvWriteTimestamp SYNC_TIMESTAMP_FILENAME "20130101000000Z";
      EvCache NAGIOS_EXIT_OK
        (mkNagiosResult "muk projects synchronised" (result_dict 0 0));
      EvReleaseOrBork SYNC_MUK_PROJECTS_LOCKFILE
        (mkNagiosResult "muk projects synchronised, lock release failed"
           (result_dict 0 0));
      EvLog INFO Finished_synchronisation],
     Returns tt).
Proof. reflexivity. Qed.

(** ** [process] in closed form *)

Lemma process_user_spec opts u acc :
  let u' := with_dry_run opts u in
  process_user opts u acc
  = (entity_trace u', Returns (if entity_fails u' then acc ++ [u'] else acc)).
Proof.
  unfold process_user, with_dry_run.
  set (u' := if opt_dry_run opts then set_dry_run u else u).
  unfold entity_trace, steps_invoked, entity_fails, do_step, call.
  cbn [provisioning_order up_to_first_raise existsb].
  unfold step_raises.
  destruct (run_step u' create_scratch_fileset (dry_run u')); [|reflexivity].
  destruct (run_step u' populate_scratch_fallback (dry_run u')); [|reflexivity].
  destruct (run_step u' create_home_dir (dry_run u')); reflexivity.
Qed.

Lemma process_loop_spec opts users : forall acc,
  process_loop opts users acc
  = (flat_map entity_trace (map (with_dry_run opts) users),
     Returns (acc ++ filter entity_fails (map (with_dry_run opts) users))).
Proof.
  induction users as [|u users IH]; intro acc.
  - simpl. unfold py_ret. rewrite app_nil_r. reflexivity.
  - cbn [process_loop map flat_map filter].
    rewrite process_user_spec. cbv zeta. rewrite bind_returns, IH.
    unfold trace, result. cbn [fst snd].
    destruct (entity_fails (with_dry_run opts u)).
    + rewrite <- app_assoc. reflexivity.
    + reflexivity.
Qed.

Lemma process_spec opts users :
  process opts users
  = (flat_map entity_trace (map (with_dry_run opts) users),
     Returns (filter entity_fails (map (with_dry_run opts) users))).
Proof. unfold process. rewrite process_loop_spec. reflexivity. Qed.

Lemma entity_trace_shape u :
  forallb (fun e => is_provision e
                    || match e with EvLog EXCEPTION (Cannot_process_user _) => true
                                  | _ => false end)
          (entity_trace u) = true.
Proof.
  unfold entity_trace, steps_invoked, entity_fails.
  cbn [provisioning_order up_to_first_raise existsb].
  unfold step_raises.
  destruct (run_step u create_scratch_fileset (dry_run u));
    destruct (run_step u populate_scratch_fallback (dry_run u));
    destruct (run_step u create_home_dir (dry_run u)); reflexivity.
Qed.

Lemma process_trace_never P opts users :
  (forall s id d, P (EvProvision s id d) = false) ->
  (forall l m, P (EvLog l m) = false) ->
  never P (trace (process opts users)).
Proof.
  intros Hp Hl. rewrite process_spec. unfold trace. cbn [fst].
  induction (map (with_dry_run opts) users) as [|u us IH]; [reflexivity|].
  cbn [flat_map]. apply never_app. split; [|exact IH].
  apply never_In. intros e He.
  pose proof (entity_trace_shape u) as Hs.
  rewrite forallb_forall in Hs. specialize (Hs e He).
  destruct e; try discriminate Hs; auto.
Qed.

Lemma steps_invoked_prefix u :
  exists skipped, provisioning_order = steps_invoked u ++ skipped.
Proof.
  unfold steps_invoked, provisioning_order. cbn [up_to_first_raise].
  destruct (step_raises u create_scratch_fileset);
    [eexists; reflexivity|].
  destruct (step_raises u populate_scratch_fallback);
    [eexists; reflexivity|].
  exists []. destruct (step_raises u create_home_dir); reflexivity.
Qed.

Lemma steps_invoked_stops u before s after :
  steps_invoked u = before ++ s :: after ->
  step_raises u s = true -> after = [].
Proof.
  unfold steps_invoked, provisioning_order. cbn [up_to_first_raise].
  destruct (step_raises u create_scratch_fileset) eqn:H1;
    [|destruct (step_raises u populate_scratch_fallback) eqn:H2;
      [|destruct (step_raises u create_home_dir) eqn:H3]];
    intros Heq Hs;
    destruct before as [|? [|? [|? [|? ?]]]];
    cbn in Heq; try discriminate Heq;
    injection Heq; intros; subst; try reflexivity; congruence.
Qed.

(** C3. [process] runs, for every user of the list and in list order, the
    steps create_scratch_fileset, populate_scratch_fallback, create_home_dir
    in that order up to and including the first one that raises; a user with
    a raising step is logged and appended to the returned failed list, its
    later steps are not invoked, and the loop goes on with the next user
    ([process] always returns); a user none of whose steps raises is never in
    the failed list. *)
Theorem process_isolates_entity_failures (opts : options) (users : list MukUser) :
  let us := map (with_dry_run opts) users in
  trace (process opts users) = flat_map entity_trace us
  /\ result (process opts users) = Returns (filter entity_fails us)
  /\ (forall u, exists skipped, provisioning_order = steps_invoked u ++ skipped)
  /\ (forall u before s after,
        steps_invoked u = before ++ s :: after ->
        step_raises u s = true -> after = [])
  /\ (forall u, entity_fails u = false -> steps_invoked u = provisioning_order)
  /\ (forall u,
        In u (filter entity_fails us)
        <-> In u us /\ exists s, In s provisioning_order /\ step_raises u s = true).
Proof.
  cbv zeta. rewrite process_spec. unfold trace, result. cbn [fst snd].
  repeat split.
  - apply steps_invoked_prefix.
  - apply steps_invoked_stops.
  - intros u. unfold entity_fails, steps_invoked, provisioning_order.
    cbn [existsb up_to_first_raise].
    destruct (step_raises u create_scratch_fileset); [discriminate|].
    destruct (step_raises u populate_scratch_fallback); [discriminate|].
    destruct (step_raises u create_home_dir); [discriminate|reflexivity].
  - apply filter_In in H. tauto.
  - apply filter_In in H. destruct H as [_ H].
    unfold entity_fails in H. apply existsb_exists in H. exact H.
  - intros [Hin Hs]. apply filter_In. split; [exact Hin|].
    unfold entity_fails. apply existsb_exists. exact Hs.
Qed.

(** ** [process_institute], case by case *)

Lemma nfs_home_trace muk inst : trace (nfs_home muk inst) = [].
Proof.
  unfold nfs_home.
  destruct (assoc institute_eqb inst (nfs_link_pathnames muk)) as [d|];
    [destruct (assoc String.eqb "home" d)|]; reflexivity.
Qed.

Section ProcessInstituteCases.

Variable process_fn : options -> list MukUser -> py (list MukUser).
Variables (w : world) (opts : options) (inst : institute) (f : LdapFilter).

Let query : LdapFilter := AndFilter f (InstituteFilter inst).

Lemma process_institute_lookup_raises e :
  MukUser_lookup w query = Raises e ->
  process_institute_with process_fn w opts inst f = ([EvMukUserLookup query], Raises e).
Proof.
  intros Hl. unfold process_institute_with. fold query. rewrite Hl. reflexivity.
Qed.

Lemma process_institute_no_path users k :
  MukUser_lookup w query = Returns users ->
  result (nfs_home (the_muk w) inst) = Raises k ->
  process_institute_with process_fn w opts inst f
  = ([EvMukUserLookup query;
      EvLog INFO (Processing_users inst (map user_id users));
      EvLog EXCEPTION (Cannot_process_institute inst)],
     Returns (mkCounts (Z.of_nat (length users) - Z.of_nat (length users))
                       (Z.of_nat (length users)))).
Proof.
  intros Hl Hp. unfold process_institute_with. fold query. rewrite Hl.
  rewrite (py_eta (nfs_home (the_muk w) inst)), nfs_home_trace, Hp.
  reflexivity.
Qed.

Lemma process_institute_stat_raises users p e :
  MukUser_lookup w query = Returns users ->
  result (nfs_home (the_muk w) inst) = Returns p ->
  os_stat w p = Raises e ->
  process_institute_with process_fn w opts inst f
  = ([EvMukUserLookup query;
      EvLog INFO (Processing_users inst (map user_id users));
      EvLog INFO (Checking_link p);
      EvStat p;
      EvLog EXCEPTION (Cannot_process_institute inst)],
     Returns (mkCounts (Z.of_nat (length users) - Z.of_nat (length users))
                       (Z.of_nat (length users)))).
Proof.
  intros Hl Hp Hs. unfold process_institute_with. fold query. rewrite Hl.
  rewrite (py_eta (nfs_home (the_muk w) inst)), nfs_home_trace, Hp.
  cbn. unfold py_bind, call. rewrite Hs. reflexivity.
Qed.

Lemma process_institute_process_returns users p t eu :
  MukUser_lookup w query = Returns users ->
  result (nfs_home (the_muk w) inst) = Returns p ->
  os_stat w p = Returns tt ->
  process_fn opts users = (t, Returns eu) ->
  process_institute_with process_fn w opts inst f
  = ([EvMukUserLookup query;
      EvLog INFO (Processing_users inst (map user_id users));
      EvLog INFO (Checking_link p);
      EvStat p] ++ t,
     Returns (mkCounts (Z.of_nat (length users) - Z.of_nat (length eu))
                       (Z.of_nat (length eu)))).
Proof.
  intros Hl Hp Hs Hf. unfold process_institute_with. fold query. rewrite Hl.
  rewrite (py_eta (nfs_home (the_muk w) inst)), nfs_home_trace, Hp.
  cbn. unfold py_bind, call. rewrite Hs, Hf. cbn.
  rewrite !app_nil_r. reflexivity.
Qed.


End ProcessInstituteCases.

(** C4. When the users of an institute have been looked up and the stat of
    its NFS link raises, [process_institute] makes no provisioning call,
    returns ok = 0 and fail = the number of looked-up users, logs the
    failure, and has tried the stat exactly once. *)
Theorem mount_failure_fails_whole_institute
    (w : world) (opts : options) (inst : institute) (f : LdapFilter)
    (users : list MukUser) (p : string) (e : exn) :
  MukUser_lookup w (AndFilter f (InstituteFilter inst)) = Returns users ->
  result (nfs_home (the_muk w) inst) = Returns p ->
  os_stat w p = Raises e ->
  let r := process_institute w opts inst f in
  result r = Returns (mkCounts 0 (Z.of_nat (length users)))
  /\ count is_provision (trace r) = 0
  /\ count is_mount_check (trace r) = 1
  /\ In (EvLog EXCEPTION (Cannot_process_institute inst)) (trace r)
  /\ count is_lookup (trace r) = 1.
Proof.
  intros Hl Hp Hs. cbv zeta. unfold process_institute.
  rewrite (process_institute_stat_raises process w opts inst f users p e Hl Hp Hs).
  unfold trace, result. cbn [fst snd]. rewrite Z.sub_diag.
  repeat split; try reflexivity.
  cbn. tauto.
Qed.

Lemma mount_failure_fails_whole_institute_witness :
  let w := with_stat quiet_world (fun _ => Raises OSError) in
  let r := process_institute w plain_options LEUVEN users_filter in
  result r = Returns (mkCounts 0 3)
  /\ count is_provision (trace r) = 0
  /\ count is_mount_check (trace r) = 1
  /\ In (EvLog EXCEPTION (Cannot_process_institute LEUVEN)) (trace r)
  /\ count is_lookup (trace r) = 1.
Proof.
  exact (mount_failure_fails_whole_institute
           (with_stat quiet_world (fun _ => Raises OSError))
           plain_options LEUVEN users_filter sample_users
           "/nfs/leuven/home" OSError eq_refl eq_refl eq_refl).
Defined.

(** C5, as the specification words it, fails: with a lookup that raises,
    [process_institute] returns no counts at all. *)
Lemma lookup_failure_returns_no_counts :
  ~ lookup_failure_returns_counts
      (with_user_lookup quiet_world (fun _ => Raises LdapError))
      plain_options GENT users_filter.
Proof.
  unfold lookup_failure_returns_counts. intros [c [H _]].
  vm_compute in H. discriminate H.
Qed.

(** C5, amended. When the lookup raises, the exception leaves
    [process_institute] unchanged right after the query: no mount check, no
    provisioning call, no log line, and no counts are returned. *)
Theorem lookup_failure_propagates
    (w : world) (opts : options) (inst : institute) (f : LdapFilter) (e : exn) :
  MukUser_lookup w (AndFilter f (InstituteFilter inst)) = Raises e ->
  process_institute w opts inst f
  = ([EvMukUserLookup (AndFilter f (InstituteFilter inst))], Raises e).
Proof.
  intros Hl. unfold process_institute.
  apply process_institute_lookup_raises. exact Hl.
Qed.

Lemma lookup_failure_propagates_witness :
  process_institute (with_user_lookup quiet_world (fun _ => Raises LdapError))
                    plain_options GENT users_filter
  = ([EvMukUserLookup (AndFilter users_filter (InstituteFilter GENT))],
     Raises LdapError).
Proof.
  exact (lookup_failure_propagates
           (with_user_lookup quiet_world (fun _ => Raises LdapError))
           plain_options GENT users_filter LdapError eq_refl).
Defined.






(** ** [main], case by case *)

Section MainCases.

Variable project : Type.
Variable MukProject : string -> py project.
Variable process_project : options -> project -> py bool.

Lemma build_projects_nonempty project_id rest :
  build_projects project MukProject (project_id :: rest)
  = ([], Raises (NameError "MukProject")).
Proof. reflexivity. Qed.

Lemma main_except_raises w :
  main_except w
  = ([EvLog EXCEPTION Fail_during_synchronisation],
     Raises (NameError "SYNC_MUK_USERS_LOGFILE")).
Proof. reflexivity. Qed.

Lemma main_try_body_cases w opts :
  main_try_body project MukProject process_project w opts = main_try_body_table w.
Proof.
  unfold main_try_body, main_try_body_table, call. cbn.
  destruct (LdapQuery w) as [[]|e]; [|reflexivity]. cbn.
  destruct (Group_lookup w _) as [[|g gs]|e]; cbn.
  - reflexivity.
  - destruct (memberUid g) as [|i ids]; reflexivity.
  - destruct (is_IndexError e); reflexivity.
Qed.

Lemma main_try_handles w opts t e :
  main_try_body project MukProject process_project w opts = (t, Raises e) ->
  is_Exception e = true ->
  main_try project MukProject process_project w opts
  = (t ++ [EvLog EXCEPTION Fail_during_synchronisation],
     Raises (NameError "SYNC_MUK_USERS_LOGFILE")).
Proof.
  intros Hb He. unfold main_try, try_except. rewrite Hb, He.
  rewrite main_except_raises. reflexivity.
Qed.

Lemma main_try_trace_quiet P w opts :
  P EvLdapQuery = false ->
  (forall q, P (EvGroupLookup q) = false) ->
  (forall l m, P (EvLog l m) = false) ->
  never P (trace (main_try project MukProject process_project w opts)).
Proof.
  intros H1 H2 H3.
  unfold main_try, try_except. rewrite main_try_body_cases.
  unfold main_try_body_table, never.
  destruct (LdapQuery w) as [[]|e].
  - destruct (Group_lookup w _) as [[|g gs]|e].
    + cbn. rewrite H1, H2, !H3. reflexivity.
    + destruct (memberUid g); cbn; rewrite H1, H2, ?H3; reflexivity.
    + destruct (is_IndexError e) eqn:Hi; cbn.
      * rewrite H1, H2, !H3. reflexivity.
      * destruct (is_Exception e); cbn; rewrite H1, H2, ?H3; reflexivity.
  - destruct (is_Exception e); cbn; rewrite H1, ?H3; reflexivity.
Qed.

Lemma main_prologue_nagios w opts :
  opt_nagios opts = true ->
  main_prologue w opts
  = ([EvReportAndExit],
     match report_and_exit w with
     | Returns _ => Raises (SystemExit (ExitInt 0))
     | Raises e => Raises e
     end).
Proof.
  intros Hn. unfold main_prologue, call. rewrite Hn. cbn.
  destruct (report_and_exit w); reflexivity.
Qed.

Lemma main_prologue_trace_quiet P w opts :
  P EvReportAndExit = false ->
  (forall l m, P (EvLog l m) = false) ->
  (forall c r, P (EvCache c r) = false) ->
  (forall p, P (EvLockOrBork p) = false) ->
  never P (trace (main_prologue w opts)).
Proof.
  intros H1 H2 H3 H4. unfold main_prologue, call, never.
  destruct (opt_nagios opts); cbn.
  - destruct (report_and_exit w); cbn; rewrite H1; reflexivity.
  - destruct (proceed_on_ha_service w (opt_ha opts)); cbn;
      destruct (lock_or_bork w); cbn; rewrite ?H1, ?H2, ?H3, ?H4; reflexivity.
Qed.

End MainCases.

(** ** Outcome evaluation *)

Lemma main_outcome_partial_failure w opts projects_ok n :
  let t := trace (main_outcome w opts projects_ok (S n)) in
  In (EvCache NAGIOS_EXIT_WARNING
        (mkNagiosResult "several projects were not synched"
           (result_dict projects_ok (S n)))) t
  /\ never is_timestamp_write t
  /\ never (is_cache_of NAGIOS_EXIT_OK) t
  /\ count is_cache t = 1
  /\ count is_lock_release t = 1.
Proof.
  cbv zeta. unfold main_outcome, call, never, count. cbn.
  destruct (release_or_bork w); cbn; repeat split; auto.
Qed.

Lemma main_outcome_dry_run w opts projects_ok :
  opt_dry_run opts = true ->
  let t := trace (main_outcome w opts projects_ok 0) in
  never is_timestamp_write t
  /\ In (EvCache NAGIOS_EXIT_OK
           (mkNagiosResult "muk projects synchronised" (result_dict projects_ok 0))) t.
Proof.
  intros Hd. cbv zeta. unfold main_outcome, call, never. rewrite Hd. cbn.
  destruct (release_or_bork w); cbn; split; auto.
Qed.

Lemma main_outcome_full_success w opts projects_ok :
  opt_dry_run opts = false ->
  let ts := convert_timestamp w in
  let t := trace (main_outcome w opts projects_ok 0) in
  In (EvWriteTimestamp SYNC_TIMESTAMP_FILENAME ts) t
  /\ count is_timestamp_write t = 1
  /\ count is_cache t = 1
  /\ count is_lock_release t = 1
  /\ match write_timestamp w SYNC_TIMESTAMP_FILENAME ts with
     | Returns _ =>
         In (EvCache NAGIOS_EXIT_OK
               (mkNagiosResult "muk projects synchronised"
                  (result_dict projects_ok 0))) t
     | Raises _ =>
         In (EvCache NAGIOS_EXIT_WARNING
               (mkNagiosResult "muk projects synchronised, filestamp not written"
                  (result_dict projects_ok 0))) t
         /\ never (is_cache_of NAGIOS_EXIT_OK) t
     end.
Proof.
  intros Hd. cbv zeta. unfold main_outcome, call, never, count. cbv zeta.
  rewrite Hd.
  destruct (write_timestamp w SYNC_TIMESTAMP_FILENAME (convert_timestamp w));
    cbn; destruct (release_or_bork w); cbn; repeat split; auto.
Qed.

Lemma never_timestamp_write_In t :
  never is_timestamp_write t -> ~ exists fn ts, In (EvWriteTimestamp fn ts) t.
Proof.
  intros Hn [fn [ts Hin]].
  apply (proj1 (never_In _ _) Hn) in Hin. discriminate Hin.
Qed.

Lemma main_outcome_writes_iff w opts projects_ok projects_fail :
  (exists fn ts,
     In (EvWriteTimestamp fn ts) (trace (main_outcome w opts projects_ok projects_fail)))
  <-> projects_fail = 0 /\ opt_dry_run opts = false.
Proof.
  split.
  - intros Hw. destruct projects_fail as [|n].
    + split; [reflexivity|]. destruct (opt_dry_run opts) eqn:Hd; [|reflexivity].
      exfalso. revert Hw. apply never_timestamp_write_In.
      apply (main_outcome_dry_run w opts projects_ok Hd).
    + exfalso. revert Hw. apply never_timestamp_write_In.
      apply (main_outcome_partial_failure w opts projects_ok n).
  - intros [-> Hd]. do 2 eexists.
    apply (main_outcome_full_success w opts projects_ok Hd).
Qed.

(** ** The whole run *)

Section MainRun.

Variable project : Type.
Variable MukProject : string -> py project.
Variable process_project : options -> project -> py bool.

Let main' := main project MukProject process_project.
Let main_try' := main_try project MukProject process_project.

Lemma main_stops_in_prologue w opts t0 e :
  main_prologue w opts = (t0, Raises e) -> main' w opts = (t0, Raises e).
Proof. intros H. unfold main', main. rewrite H. reflexivity. Qed.

Lemma main_stops_in_try w opts t0 t1 e :
  main_prologue w opts = (t0, Returns tt) ->
  main_try' w opts = (t1, Raises e) ->
  main' w opts = (t0 ++ t1, Raises e).
Proof.
  intros H0 H1. unfold main', main. fold main_try'. rewrite H0, H1. reflexivity.
Qed.

Lemma main_reaches_outcome w opts t0 t1 projects_ok projects_fail :
  main_prologue w opts = (t0, Returns tt) ->
  main_try' w opts = (t1, Returns (projects_ok, projects_fail)) ->
  main' w opts
  = (t0 ++ t1 ++ trace (main_outcome w opts projects_ok projects_fail),
     result (main_outcome w opts projects_ok projects_fail)).
Proof.
  intros H0 H1. unfold main', main. fold main_try'.
  rewrite H0, bind_returns. cbv beta. rewrite H1, bind_returns. cbv beta iota.
  unfold trace, result. cbn [fst snd]. reflexivity.
Qed.

Lemma main_writes_timestamp_iff w opts :
  (exists fn ts, In (EvWriteTimestamp fn ts) (trace (main' w opts)))
  <-> (exists t0 t1 projects_ok,
         main_prologue w opts = (t0, Returns tt)
         /\ main_try' w opts = (t1, Returns (projects_ok, 0))
         /\ opt_dry_run opts = false).
Proof.
  assert (Hp : never is_timestamp_write (trace (main_prologue w opts)))
    by (apply main_prologue_trace_quiet; reflexivity).
  assert (Ht : never is_timestamp_write (trace (main_try' w opts)))
    by (apply main_try_trace_quiet; reflexivity).
  destruct (main_prologue w opts) as [t0 [[]|e0]] eqn:H0.
  - destruct (main_try' w opts) as [t1 [[pok pfail]|e1]] eqn:H1.
    + rewrite (main_reaches_outcome w opts t0 t1 pok pfail H0 H1).
      unfold trace at 1. cbn [fst]. split.
      * intros [fn [ts Hin]].
        apply in_app_or in Hin. destruct Hin as [Hin|Hin];
          [apply (proj1 (never_In _ _) Hp) in Hin; discriminate Hin|].
        apply in_app_or in Hin. destruct Hin as [Hin|Hin];
          [apply (proj1 (never_In _ _) Ht) in Hin; discriminate Hin|].
        assert (Hw : pfail = 0 /\ opt_dry_run opts = false)
          by (apply (main_outcome_writes_iff w opts pok pfail); eauto).
        destruct Hw as [-> Hd]. exists t0, t1, pok. auto.
      * intros [t0' [t1' [pok' [_ [Heq Hd]]]]].
        injection Heq as _ _ ->.
        destruct (proj2 (main_outcome_writes_iff w opts pok 0) (conj eq_refl Hd))
          as [fn [ts Hin]].
        exists fn, ts. apply in_or_app. right. apply in_or_app. right. exact Hin.
    + rewrite (main_stops_in_try w opts t0 t1 e1 H0 H1).
      unfold trace at 1. cbn [fst]. split.
      * intros [fn [ts Hin]]. exfalso.
        apply in_app_or in Hin. destruct Hin as [Hin|Hin].
        -- apply (proj1 (never_In _ _) Hp) in Hin. discriminate Hin.
        -- apply (proj1 (never_In _ _) Ht) in Hin. discriminate Hin.
      * intros [t0' [t1' [pok' [_ [Heq _]]]]]. discriminate Heq.
  - rewrite (main_stops_in_prologue w opts t0 e0 H0).
    unfold trace at 1. cbn [fst]. split.
    + intros [fn [ts Hin]]. exfalso.
      apply (proj1 (never_In _ _) Hp) in Hin. discriminate Hin.
    + intros [t0' [t1' [pok' [Heq _]]]]. discriminate Heq.
Qed.

(** No run queries the users of an institute, checks a mount or provisions
    an entity: [main] calls neither [force_nfs_mounts] nor
    [process_institute]. *)
Lemma main_does_no_institute_work w opts :
  never is_institute_work (trace (main' w opts)).
Proof.
  assert (Hp : never is_institute_work (trace (main_prologue w opts)))
    by (apply main_prologue_trace_quiet; reflexivity).
  assert (Ht : never is_institute_work (trace (main_try' w opts)))
    by (apply main_try_trace_quiet; reflexivity).
  destruct (main_prologue w opts) as [t0 [[]|e0]] eqn:H0.
  - destruct (main_try' w opts) as [t1 [[pok pfail]|e1]] eqn:H1.
    + rewrite (main_reaches_outcome w opts t0 t1 pok pfail H0 H1).
      unfold trace at 1. cbn [fst].
      apply never_app. split; [exact Hp|]. apply never_app. split; [exact Ht|].
      unfold main_outcome, call, never. cbv zeta.
      destruct (Nat.ltb 0 pfail); cbn.
      * destruct (release_or_bork w); reflexivity.
      * destruct (opt_dry_run opts); cbn;
          [|destruct (write_timestamp w _ _); cbn];
          destruct (release_or_bork w); reflexivity.
    + rewrite (main_stops_in_try w opts t0 t1 e1 H0 H1).
      unfold trace at 1. cbn [fst]. apply never_app. split; assumption.
  - rewrite (main_stops_in_prologue w opts t0 e0 H0). exact Hp.
Qed.

End MainRun.

Lemma main_prologue_returns w opts t0 :
  main_prologue w opts = (t0, Returns tt) ->
  t0 = [EvLog INFO Starting_synchronisation; EvLockOrBork SYNC_MUK_PROJECTS_LOCKFILE]
  /\ opt_nagios opts = false
  /\ proceed_on_ha_service w (opt_ha opts) = true
  /\ lock_or_bork w = Returns tt.
Proof.
  unfold main_prologue, call.
  destruct (opt_nagios opts); cbn.
  - destruct (report_and_exit w); cbn; discriminate.
  - destruct (proceed_on_ha_service w (opt_ha opts)); cbn; [|discriminate].
    destruct (lock_or_bork w) as [[]|e]; cbn; [|discriminate].
    intros H. injection H as <-. auto.
Qed.

(** C2. The timestamp file is written exactly when the counted failures
    are 0 and dry-run is off, both for the outcome evaluation of lines
    190-215 taken at any counts and for whole runs (where the write happens
    exactly when the run gets past the lock and the [try] with a fail count
    of 0 and dry-run is off).  With a positive fail count a WARNING report
    is cached, nothing is written and no OK report is cached.  With fail
    count 0, dry-run off and a write that raises, the cached report is the
    WARNING one whose message says the filestamp was not written, and no OK
    report is cached. *)
Theorem timestamp_written_iff_full_success
    (project : Type) (MukProject : string -> py project)
    (process_project : options -> project -> py bool)
    (w : world) (opts : options) (projects_ok projects_fail : nat) :
  let run := main project MukProject process_project w opts in
  let t := trace (main_outcome w opts projects_ok projects_fail) in
  ((exists fn ts, In (EvWriteTimestamp fn ts) t)
   <-> projects_fail = 0 /\ opt_dry_run opts = false)
  /\ ((exists fn ts, In (EvWriteTimestamp fn ts) (trace run))
      <-> exists t0 t1 n,
            main_prologue w opts = (t0, Returns tt)
            /\ main_try project MukProject process_project w opts
               = (t1, Returns (n, 0))
            /\ opt_dry_run opts = false)
  /\ (0 < projects_fail ->
      In (EvCache NAGIOS_EXIT_WARNING
            (mkNagiosResult "several projects were not synched"
               (result_dict projects_ok projects_fail))) t
      /\ never is_timestamp_write t
      /\ never (is_cache_of NAGIOS_EXIT_OK) t)
  /\ (projects_fail = 0 -> opt_dry_run opts = false ->
      forall e,
        write_timestamp w SYNC_TIMESTAMP_FILENAME (convert_timestamp w) = Raises e ->
        In (EvCache NAGIOS_EXIT_WARNING
              (mkNagiosResult "muk projects synchronised, filestamp not written"
                 (result_dict projects_ok projects_fail))) t
        /\ never (is_cache_of NAGIOS_EXIT_OK) t).
Proof.
  cbv zeta. split; [apply main_outcome_writes_iff|].
  split; [apply main_writes_timestamp_iff|].
  split.
  - intros Hpos. destruct projects_fail as [|n]; [lia|].
    pose proof (main_outcome_partial_failure w opts projects_ok n) as H.
    cbv zeta in H. tauto.
  - intros -> Hd e He.
    pose proof (main_outcome_full_success w opts projects_ok Hd) as H.
    cbv zeta in H. rewrite He in H. tauto.
Qed.

Lemma timestamp_written_iff_full_success_witness :
  (let t := trace (main_outcome quiet_world plain_options 2 3) in
   In (EvCache NAGIOS_EXIT_WARNING
         (mkNagiosResult "several projects were not synched" (result_dict 2 3))) t
   /\ never is_timestamp_write t
   /\ never (is_cache_of NAGIOS_EXIT_OK) t)
  /\ (let w := with_write_timestamp quiet_world (fun _ _ => Raises OSError) in
      let t := trace (main_outcome w plain_options 5 0) in
      In (EvCache NAGIOS_EXIT_WARNING
            (mkNagiosResult "muk projects synchronised, filestamp not written"
               (result_dict 5 0))) t
      /\ never (is_cache_of NAGIOS_EXIT_OK) t).
Proof.
  split.
  - apply (timestamp_written_iff_full_success
             unit no_project no_process_project quiet_world plain_options 2 3).
    lia.
  - apply (timestamp_written_iff_full_success
             unit no_project no_process_project
             (with_write_timestamp quiet_world (fun _ _ => Raises OSError))
             plain_options 5 0) with (e := OSError); reflexivity.
Defined.

(** C8, as the specification words it, fails: when the cached report makes
    [report_and_exit] leave with status 2, the run ends with 2, not 0. *)
Lemma nagios_run_may_exit_nonzero :
  ~ nagios_run_exits_zero
      (with_report_and_exit quiet_world (Raises (SystemExit (ExitInt 2))))
      nagios_options.
Proof.
  unfold nagios_run_exits_zero. cbv zeta. intros [_ H].
  vm_compute in H. discriminate H.
Qed.

(** C8, amended.  With [--nagios] set the only thing the run does is call
    [report_and_exit]: no lock is taken or released, no directory lookup is
    made, nothing is provisioned, no report is cached and no timestamp is
    written.  The run ends the way [report_and_exit] ends; exit code 0 is
    produced only if that call returns. *)
Theorem nagios_only_reports
    (project : Type) (MukProject : string -> py project)
    (process_project : options -> project -> py bool)
    (w : world) (opts : options) :
  opt_nagios opts = true ->
  let run := main project MukProject process_project w opts in
  trace run = [EvReportAndExit]
  /\ never is_mutation (trace run)
  /\ never is_directory_lookup (trace run)
  /\ never is_institute_work (trace run)
  /\ terminate (result run)
     = match report_and_exit w with
       | Returns _ => Exit_with (ExitInt 0)
       | Raises e => terminate (Raises e)
       end.
Proof.
  intros Hn. cbv zeta.
  rewrite (main_stops_in_prologue project MukProject process_project w opts
             [EvReportAndExit]
             (match report_and_exit w with
              | Returns _ => SystemExit (ExitInt 0)
              | Raises e => e
              end)).
  - unfold trace, result. cbn [fst snd].
    repeat split; destruct (report_and_exit w); reflexivity.
  - rewrite (main_prologue_nagios w opts Hn).
    destruct (report_and_exit w); reflexivity.
Qed.

Lemma nagios_only_reports_witness :
  let run := main unit no_project no_process_project quiet_world nagios_options in
  trace run = [EvReportAndExit]
  /\ never is_mutation (trace run)
  /\ never is_directory_lookup (trace run)
  /\ never is_institute_work (trace run)
  /\ terminate (result run) = Exit_with (ExitInt 0).
Proof.
  exact (nagios_only_reports unit no_project no_process_project
           quiet_world nagios_options eq_refl).
Defined.

(** C6 (what the code does).  Whenever the lock has been taken and the body
    of the [try] raises an exception of class Exception, the handler of
    lines 182-188 logs and then itself raises NameError on
    SYNC_MUK_USERS_LOGFILE: no report is cached by the handler, the lock is
    never released, and the run ends with an uncaught NameError instead of
    the critical exit code. *)
Theorem critical_handler_never_releases_lock
    (project : Type) (MukProject : string -> py project)
    (process_project : options -> project -> py bool)
    (w : world) (opts : options) (t0 t1 : list event) (e : exn) :
  main_prologue w opts = (t0, Returns tt) ->
  main_try_body project MukProject process_project w opts = (t1, Raises e) ->
  is_Exception e = true ->
  let run := main project MukProject process_project w opts in
  trace run = t0 ++ t1 ++ [EvLog EXCEPTION Fail_during_synchronisation]
  /\ count is_lock_acquire (trace run) = 1
  /\ count is_lock_release (trace run) = 0
  /\ count is_cache (trace run) = 0
  /\ terminate (result run) = Uncaught (NameError "SYNC_MUK_USERS_LOGFILE").
Proof.
  intros H0 H1 He. cbv zeta.
  pose proof (main_try_handles project MukProject process_project w opts t1 e H1 He)
    as Ht.
  rewrite (main_stops_in_try project MukProject process_project w opts
             t0 _ _ H0 Ht).
  unfold trace, result. cbn [fst snd].
  split; [reflexivity|].
  assert (Hq1 : never is_lock_release (t1 ++ [EvLog EXCEPTION Fail_during_synchronisation])).
  { pose proof (main_try_trace_quiet project MukProject process_project
                  is_lock_release w opts eq_refl (fun _ => eq_refl)
                  (fun _ _ => eq_refl)) as H.
    rewrite Ht in H. exact H. }
  assert (Hq2 : never is_cache (t1 ++ [EvLog EXCEPTION Fail_during_synchronisation])).
  { pose proof (main_try_trace_quiet project MukProject process_project
                  is_cache w opts eq_refl (fun _ => eq_refl)
                  (fun _ _ => eq_refl)) as H.
    rewrite Ht in H. exact H. }
  assert (Hq3 : never is_lock_acquire (t1 ++ [EvLog EXCEPTION Fail_during_synchronisation])).
  { pose proof (main_try_trace_quiet project MukProject process_project
                  is_lock_acquire w opts eq_refl (fun _ => eq_refl)
                  (fun _ _ => eq_refl)) as H.
    rewrite Ht in H. exact H. }
  apply never_count in Hq1, Hq2, Hq3.
  destruct (main_prologue_returns w opts t0 H0) as [-> _].
  rewrite !(count_app _ [EvLog INFO Starting_synchronisation;
                          EvLockOrBork SYNC_MUK_PROJECTS_LOCKFILE]).
  rewrite Hq1, Hq2, Hq3. repeat split.
Qed.

Lemma critical_handler_never_releases_lock_witness :
  let run := main unit no_project no_process_project no_group_world plain_options in
  trace run
  = [EvLog INFO Starting_synchronisation;
     EvLockOrBork SYNC_MUK_PROJECTS_LOCKFILE;
     EvLdapQuery;
     EvGroupLookup (CnFilter "muk_projects");
     EvLog WARNING (Could_not_find_group "muk_users");
     EvLog EXCEPTION Fail_during_synchronisation]
  /\ count is_lock_acquire (trace run) = 1
  /\ count is_lock_release (trace run) = 0
  /\ count is_cache (trace run) = 0
  /\ terminate (result run) = Uncaught (NameError "SYNC_MUK_USERS_LOGFILE").
Proof.
  exact (critical_handler_never_releases_lock unit no_project no_process_project
           no_group_world plain_options
           [EvLog INFO Starting_synchronisation;
            EvLockOrBork SYNC_MUK_PROJECTS_LOCKFILE]
           [EvLdapQuery;
            EvGroupLookup (CnFilter "muk_projects");
            EvLog WARNING (Could_not_find_group "muk_users")]
           IndexError eq_refl eq_refl eq_refl).
Defined.

(** C9 (what the code does).  In a run that gets past the lock and finds the
    project group with at least one member, line 171 raises NameError on
    MukProject and the [except Exception] handler is entered; the handler
    then raises NameError on SYNC_MUK_USERS_LOGFILE before it caches
    anything or releases the lock, and the run ends with that uncaught
    NameError.  A run gets past the [try] only when the member list is
    empty. *)
Theorem nonempty_group_ends_in_name_error
    (project : Type) (MukProject : string -> py project)
    (process_project : options -> project -> py bool)
    (w : world) (opts : options) (g : Group) (gs : list Group) :
  opt_nagios opts = false ->
  proceed_on_ha_service w (opt_ha opts) = true ->
  lock_or_bork w = Returns tt ->
  LdapQuery w = Returns tt ->
  Group_lookup w (CnFilter (muk_project_group (the_muk w))) = Returns (g :: gs) ->
  memberUid g <> [] ->
  let run := main project MukProject process_project w opts in
  result (main_try_body project MukProject process_project w opts)
  = Raises (NameError "MukProject")
  /\ trace run
     = [EvLog INFO Starting_synchronisation;
        EvLockOrBork SYNC_MUK_PROJECTS_LOCKFILE;
        EvLdapQuery;
        EvGroupLookup (CnFilter (muk_project_group (the_muk w)));
        EvLog INFO (Muk_projects (autogroup g));
        EvLog EXCEPTION Fail_during_synchronisation]
  /\ terminate (result run) = Uncaught (NameError "SYNC_MUK_USERS_LOGFILE")
  /\ (forall w' t c,
        main_try project MukProject process_project w' opts = (t, Returns c) ->
        exists g' gs',
          Group_lookup w' (CnFilter (muk_project_group (the_muk w'))) = Returns (g' :: gs')
          /\ memberUid g' = []).
Proof.
  intros Hn Hha Hlock Hldap Hg Hm. cbv zeta.
  assert (Hbody : main_try_body project MukProject process_project w opts
                  = ([EvLdapQuery;
                      EvGroupLookup (CnFilter (muk_project_group (the_muk w)));
                      EvLog INFO (Muk_projects (autogroup g))],
                     Raises (NameError "MukProject"))).
  { rewrite main_try_body_cases. unfold main_try_body_table. cbv zeta.
    rewrite Hldap, Hg. destruct (memberUid g); [contradiction|reflexivity]. }
  assert (H0 : main_prologue w opts
               = ([EvLog INFO Starting_synchronisation;
                   EvLockOrBork SYNC_MUK_PROJECTS_LOCKFILE], Returns tt)).
  { unfold main_prologue, call. rewrite Hn, Hha, Hlock. reflexivity. }
  pose proof (main_try_handles project MukProject process_project w opts
                _ _ Hbody eq_refl) as Ht.
  rewrite (main_stops_in_try project MukProject process_project w opts
             _ _ _ H0 Ht), Hbody.
  unfold trace, result. cbn [fst snd].
  repeat split.
  intros w' t c. unfold main_try, try_except.
  rewrite main_try_body_cases. unfold main_try_body_table. cbv zeta.
  destruct (LdapQuery w') as [[]|e'].
  - destruct (Group_lookup w' _) as [[|g' gs']|e'].
    + cbn. discriminate.
    + destruct (memberUid g') eqn:Hm'; cbn; [|discriminate].
      intros _. exists g', gs'. auto.
    + destruct (is_IndexError e'); cbn; [discriminate|].
      destruct (is_Exception e'); cbn; discriminate.
  - destruct (is_Exception e'); cbn; discriminate.
Qed.

Lemma nonempty_group_ends_in_name_error_witness :
  let run := main unit no_project no_process_project two_projects_world plain_options in
  result (main_try_body unit no_project no_process_project two_projects_world
            plain_options)
  = Raises (NameError "MukProject")
  /\ trace run
     = [EvLog INFO Starting_synchronisation;
        EvLockOrBork SYNC_MUK_PROJECTS_LOCKFILE;
        EvLdapQuery;
        EvGroupLookup (CnFilter "muk_projects");
        EvLog INFO (Muk_projects "muk_projects");
        EvLog EXCEPTION Fail_during_synchronisation]
  /\ terminate (result run) = Uncaught (NameError "SYNC_MUK_USERS_LOGFILE").
Proof.
  pose proof (nonempty_group_ends_in_name_error unit no_project no_process_project
                two_projects_world plain_options
                (mkGroup "muk_projects" ["project1"; "project2"]) []
                eq_refl eq_refl eq_refl eq_refl eq_refl
                ltac:(discriminate)) as H.
  cbv zeta in H. destruct H as [H1 [H2 [H3 _]]].
  cbv zeta. repeat split; assumption.
Defined.

(** ** [force_nfs_mounts] *)

Section ForceNfsMounts.

Variables (w : world) (muk : Muk).

Let loop := force_nfs_mounts_loop w muk.

Lemma force_loop_brussel rest acc :
  loop (BRUSSEL :: rest) acc
  = (EvLog WARNING (Not_performing_any_action BRUSSEL) :: trace (loop rest acc),
     result (loop rest acc)).
Proof.
  unfold loop. cbn [force_nfs_mounts_loop institute_eqb].
  unfold log, emit. rewrite bind_returns. reflexivity.
Qed.

Lemma force_loop_other inst rest acc :
  institute_eqb inst BRUSSEL = false ->
  loop (inst :: rest) acc
  = match result (nfs_home muk inst) with
    | Raises k => ([], Raises k)
    | Returns p =>
        match os_stat w p with
        | Returns _ =>
            (EvStat p :: trace (loop rest (acc ++ [inst])),
             result (loop rest (acc ++ [inst])))
        | Raises _ =>
            (EvStat p :: EvLog EXCEPTION (Cannot_stat_not_adding p)
               :: trace (loop rest acc),
             result (loop rest acc))
        end
    end.
Proof.
  intros Hne. unfold loop. cbn [force_nfs_mounts_loop]. rewrite Hne.
  rewrite (py_eta (nfs_home muk inst)), nfs_home_trace.
  destruct (result (nfs_home muk inst)) as [p|k]; [|reflexivity].
  unfold call. cbn -[force_nfs_mounts_loop]. unfold py_bind.
  destruct (os_stat w p); cbn -[force_nfs_mounts_loop];
    change (force_nfs_mounts_loop w muk) with loop;
    rewrite (py_eta (loop rest _)) at 1; reflexivity.
Qed.

Lemma force_loop_excludes_brussel todo : forall acc mounts,
  ~ In BRUSSEL acc ->
  result (loop todo acc) = Returns mounts -> ~ In BRUSSEL mounts.
Proof.
  induction todo as [|inst rest IH]; intros acc mounts Hacc Hr.
  - injection Hr as <-. exact Hacc.
  - destruct (institute_eqb inst BRUSSEL) eqn:Hb.
    + destruct inst; try discriminate Hb.
      rewrite force_loop_brussel in Hr. eapply IH; eauto.
    + rewrite (force_loop_other inst rest acc Hb) in Hr.
      destruct (result (nfs_home muk inst)) as [p|k]; [|discriminate Hr].
      destruct (os_stat w p).
      * eapply IH; [|exact Hr]. intros Hin. apply in_app_or in Hin.
        destruct Hin as [Hin|[Heq|[]]]; [auto|].
        rewrite Heq in Hb. discriminate Hb.
      * eapply IH; eauto.
Qed.

Lemma force_loop_warns_each_time todo : forall acc mounts,
  result (loop todo acc) = Returns mounts ->
  count is_brussel_warning (trace (loop todo acc))
  = length (filter (fun i => institute_eqb i BRUSSEL) todo).
Proof.
  induction todo as [|inst rest IH]; intros acc mounts Hr.
  - reflexivity.
  - cbn [filter]. destruct (institute_eqb inst BRUSSEL) eqn:Hb.
    + destruct inst; try discriminate Hb.
      rewrite force_loop_brussel in Hr |- *. unfold count. cbn.
      f_equal. eapply IH; eauto.
    + rewrite (force_loop_other inst rest acc Hb) in Hr |- *.
      destruct (result (nfs_home muk inst)) as [p|k]; [|discriminate Hr].
      destruct (os_stat w p); unfold count; cbn; eapply IH; eauto.
Qed.

End ForceNfsMounts.

Lemma force_loop_ignores_brussel w muk1 muk2 todo :
  nfs_link_pathnames muk1 = nfs_link_pathnames muk2 ->
  forall acc,
  let skipped := force_nfs_mounts_loop w muk1 todo acc in
  let absent :=
    force_nfs_mounts_loop w muk2
      (filter (fun i => negb (institute_eqb i BRUSSEL)) todo) acc in
  filter (fun e => negb (is_brussel_warning e)) (trace skipped) = trace absent
  /\ result skipped = result absent.
Proof.
  intros Hpaths.
  assert (Hhome : forall i, nfs_home muk1 i = nfs_home muk2 i)
    by (intros i; unfold nfs_home; rewrite Hpaths; reflexivity).
  induction todo as [|inst rest IH]; intros acc; cbv zeta.
  - split; reflexivity.
  - cbn [filter]. destruct (institute_eqb inst BRUSSEL) eqn:Hb; cbn [negb].
    + destruct inst; try discriminate Hb.
      rewrite force_loop_brussel. destruct (IH acc) as [IHt IHr].
      unfold trace, result in *. cbn [fst snd filter is_brussel_warning negb].
      split; assumption.
    + rewrite !(force_loop_other _ _ inst _ acc Hb), Hhome.
      destruct (result (nfs_home muk2 inst)) as [p|k]; [|split; reflexivity].
      destruct (os_stat w p).
      * destruct (IH (acc ++ [inst])) as [IHt IHr].
        unfold trace, result in *. cbn [fst snd filter is_brussel_warning negb].
        rewrite IHt, IHr. split; reflexivity.
      * destruct (IH acc) as [IHt IHr].
        unfold trace, result in *. cbn [fst snd filter is_brussel_warning negb].
        rewrite IHt, IHr. split; reflexivity.
Qed.

(** ** The order of events inside [process_institute] *)

Lemma process_institute_trace_shape w opts inst f :
  exists pre post,
    trace (process_institute w opts inst f)
    = EvMukUserLookup (AndFilter f (InstituteFilter inst)) :: pre ++ post
    /\ never is_institute_work pre
    /\ (post = []
        \/ exists p tail,
             post = EvStat p :: tail
             /\ never is_lookup tail /\ never is_mount_check tail).
Proof.
  unfold process_institute.
  destruct (MukUser_lookup w (AndFilter f (InstituteFilter inst)))
    as [users|e] eqn:Hl.
  - destruct (nfs_home (the_muk w) inst) as [tp [p|k]] eqn:Hn.
    + assert (Hp : result (nfs_home (the_muk w) inst) = Returns p)
        by (rewrite Hn; reflexivity).
      exists [EvLog INFO (Processing_users inst (map user_id users));
              EvLog INFO (Checking_link p)].
      destruct (os_stat w p) as [[]|e] eqn:Hs.
      * exists (EvStat p :: trace (process opts users)).
        rewrite (process_institute_process_returns process w opts inst f users p
                   (trace (process opts users))
                   (filter entity_fails (map (with_dry_run opts) users))
                   Hl Hp Hs).
        2:{ rewrite process_spec at 1. rewrite process_spec. reflexivity. }
        split; [reflexivity|]. split; [reflexivity|].
        right. exists p, (trace (process opts users)).
        split; [reflexivity|].
        split; apply process_trace_never; reflexivity.
      * exists [EvStat p; EvLog EXCEPTION (Cannot_process_institute inst)].
        rewrite (process_institute_stat_raises process w opts inst f users p e
                   Hl Hp Hs).
        split; [reflexivity|]. split; [reflexivity|].
        right. do 2 eexists. split; [reflexivity|]. split; reflexivity.
    + assert (Hp : result (nfs_home (the_muk w) inst) = Raises k)
        by (rewrite Hn; reflexivity).
      exists [EvLog INFO (Processing_users inst (map user_id users));
              EvLog EXCEPTION (Cannot_process_institute inst)], [].
      rewrite (process_institute_no_path process w opts inst f users k Hl Hp).
      split; [reflexivity|]. split; [reflexivity|]. left. reflexivity.
  - exists [], [].
    rewrite (process_institute_lookup_raises process w opts inst f e Hl).
    split; [reflexivity|]. split; [reflexivity|]. left. reflexivity.
Qed.

Lemma never_weaken (P Q : event -> bool) t :
  (forall e, Q e = true -> P e = true) -> never P t -> never Q t.
Proof.
  intros Hpq Hn. apply never_In. intros e He.
  apply (proj1 (never_In _ _) Hn) in He.
  destruct (Q e) eqn:Hq; [|reflexivity].
  apply Hpq in Hq. congruence.
Qed.

(** C1, as the specification words it, fails: in a run of
    [process_institute] where everything answers, the lookup is the first
    event, so the mount check does not come before it. *)
Lemma lookup_comes_before_mount_check :
  ~ mount_check_comes_first
      (trace (process_institute quiet_world plain_options GENT users_filter)).
Proof.
  unfold mount_check_comes_first. intros [H _].
  vm_compute in H. discriminate H.
Qed.

(** C1, amended.  The per-institute processing, [process_institute], works
    in the order Entity Lookup, Mount Guard, Provisioner: every mount check
    comes after the institute's lookup query, every provisioning call comes
    after a mount check (hence after the lookup), and no mount check comes
    before the lookup. *)
Theorem institute_processing_order
    (w : world) (opts : options) (inst : institute) (f : LdapFilter) :
  let t := trace (process_institute w opts inst f) in
  precedes is_lookup is_mount_check t = true
  /\ precedes is_mount_check is_provision t = true
  /\ precedes is_lookup is_provision t = true
  /\ precedes is_mount_check is_lookup t = false.
Proof.
  cbv zeta.
  destruct (process_institute_trace_shape w opts inst f)
    as [pre [post [-> [Hpre Hpost]]]].
  unfold precedes. cbn [precedes_from is_lookup is_mount_check is_provision orb andb].
  rewrite !precedes_from_seen.
  repeat split.
  - rewrite precedes_from_app.
    rewrite (precedes_from_never false is_mount_check is_provision pre).
    2:{ revert Hpre. apply never_weaken. intros e He.
        unfold is_institute_work. rewrite He, !orb_true_r. reflexivity. }
    destruct Hpost as [->|[p [tail [-> _]]]]; [reflexivity|].
    cbn [precedes_from is_provision is_mount_check andb].
    rewrite orb_true_r. apply precedes_from_seen.
Qed.

(** C7, as the specification words it, fails: [process_institute] has no
    guard for BRUSSEL; given that institute it queries its users and
    provisions them. *)
Lemma process_institute_processes_brussel :
  ~ brussel_left_alone quiet_world plain_options users_filter.
Proof.
  unfold brussel_left_alone. cbv zeta. intros [H _].
  vm_compute in H. discriminate H.
Qed.

(** C7, amended.  [force_nfs_mounts], the one loop over the institutes,
    skips BRUSSEL with a warning whatever the mounts answer: BRUSSEL is
    never among the returned institutes, a completed loop has logged one
    warning per occurrence of BRUSSEL in the list, and apart from those
    warnings the events and the result are those of the same loop over the
    list without BRUSSEL (so nothing is stat'ed on its behalf).
    [process_institute] has no such exclusion: given BRUSSEL it always
    issues the lookup query for BRUSSEL first, and when the users are
    looked up and the mount check passes it runs [process] on them as for
    any other institute. *)
Theorem force_nfs_mounts_skips_brussel
    (w : world) (muk : Muk) (opts : options) (f : LdapFilter) :
  let r := force_nfs_mounts w muk in
  let r' := force_nfs_mounts w (without_brussel muk) in
  let q := AndFilter f (InstituteFilter BRUSSEL) in
  (forall mounts,
     result r = Returns mounts ->
     ~ In BRUSSEL mounts
     /\ count is_brussel_warning (trace r)
        = length (filter (fun i => institute_eqb i BRUSSEL) (institutes muk)))
  /\ filter (fun e => negb (is_brussel_warning e)) (trace r) = trace r'
  /\ result r = result r'
  /\ (exists rest,
        trace (process_institute w opts BRUSSEL f) = EvMukUserLookup q :: rest)
  /\ (forall users p,
        MukUser_lookup w q = Returns users ->
        result (nfs_home (the_muk w) BRUSSEL) = Returns p ->
        os_stat w p = Returns tt ->
        trace (process_institute w opts BRUSSEL f)
        = [EvMukUserLookup q;
           EvLog INFO (Processing_users BRUSSEL (map user_id users));
           EvLog INFO (Checking_link p);
           EvStat p] ++ trace (process opts users)).
Proof.
  cbv zeta. unfold force_nfs_mounts.
  assert (Hex : forall mounts,
             result (force_nfs_mounts_loop w muk (institutes muk) []) = Returns mounts ->
             ~ In BRUSSEL mounts).
  { intros mounts. apply force_loop_excludes_brussel. intros []. }
  split.
  - intros mounts Hr. split; [apply Hex; exact Hr|].
    eapply force_loop_warns_each_time. exact Hr.
  - pose proof (force_loop_ignores_brussel w muk (without_brussel muk)
                  (institutes muk) eq_refl []) as H.
    cbv zeta in H. destruct H as [Ht Hr].
    split; [exact Ht|]. split; [exact Hr|]. split.
    + destruct (process_institute_trace_shape w opts BRUSSEL f)
        as [pre [post [Heq _]]].
      exists (pre ++ post). exact Heq.
    + intros users p Hl Hp Hs. unfold process_institute.
      rewrite (process_institute_process_returns process w opts BRUSSEL f
                 users p _ _ Hl Hp Hs (process_spec opts users)).
      rewrite process_spec. reflexivity.
Qed.

(** * Further properties of the script *)

(** ** The run coordinator *)


Lemma main_outcome_result w opts projects_ok projects_fail :
  result (main_outcome w opts projects_ok projects_fail)
  = match release_or_bork w with
    | Returns _ => Returns tt
    | Raises e => Raises e
    end.
Proof.
  unfold main_outcome, call. cbv zeta.
  destruct projects_fail as [|n]; cbn [Nat.ltb Nat.leb].
  - destruct (opt_dry_run opts); cbn [negb].
    + cbn. destruct (release_or_bork w); reflexivity.
    + destruct (write_timestamp w SYNC_TIMESTAMP_FILENAME (convert_timestamp w));
        cbn; destruct (release_or_bork w); reflexivity.
  - cbn. destruct (release_or_bork w); reflexivity.
Qed.

(** For every way the outcome evaluation can go: the reports it caches, in
    order, and whether it attempts the timestamp write. *)
Lemma main_outcome_counts w opts projects_ok projects_fail :
  let t := trace (main_outcome w opts projects_ok projects_fail) in
  let good := Nat.eqb projects_fail 0 && (opt_dry_run opts || write_returns w) in
  count is_cache t = 1
  /\ count is_lock_release t = 1
  /\ count is_lock_acquire t = 0
  /\ precedes is_cache is_lock_release t = true
  /\ count (is_cache_of NAGIOS_EXIT_OK) t = (if good then 1 else 0)
  /\ count (is_cache_of NAGIOS_EXIT_WARNING) t = (if good then 0 else 1)
  /\ count (is_cache_of NAGIOS_EXIT_CRITICAL) t = 0
  /\ count is_timestamp_write t
     = (if Nat.eqb projects_fail 0 && negb (opt_dry_run opts) then 1 else 0).
Proof.
  cbv zeta. unfold main_outcome, call, write_returns. cbv zeta.
  destruct projects_fail as [|n]; cbn [Nat.ltb Nat.leb Nat.eqb andb].
  - destruct (opt_dry_run opts); cbn [negb orb].
    + cbn. destruct (release_or_bork w); cbn; repeat split.
    + destruct (write_timestamp w SYNC_TIMESTAMP_FILENAME (convert_timestamp w));
        cbn; destruct (release_or_bork w); cbn; repeat split.
  - cbn. destruct (release_or_bork w); cbn; repeat split.
Qed.

Ltac main_cases project MukProject process_project w opts H0 H1 :=
  let t0 := fresh "t0" in
  let t1 := fresh "t1" in
  let e0 := fresh "e0" in
  let e1 := fresh "e1" in
  let pok := fresh "pok" in
  let pfail := fresh "pfail" in
  destruct (main_prologue w opts) as [t0 [[]|e0]] eqn:H0;
  [ destruct (main_try project MukProject process_project w opts)
      as [t1 [[pok pfail]|e1]] eqn:H1;
    [ rewrite (main_reaches_outcome project MukProject process_project
                 w opts t0 t1 pok pfail H0 H1)
    | rewrite (main_stops_in_try project MukProject process_project
                 w opts t0 t1 e1 H0 H1) ]
  | rewrite (main_stops_in_prologue project MukProject process_project
               w opts t0 e0 H0) ].

(** The HA gate (lines 147-151): off the HA master the run logs a warning,
    caches a WARNING report saying so and leaves with the WARNING status,
    before any lock is taken or any directory is queried. *)
Theorem ha_gate_stops_before_lock
    (project : Type) (MukProject : string -> py project)
    (process_project : options -> project -> py bool)
    (w : world) (opts : options) :
  opt_nagios opts = false ->
  proceed_on_ha_service w (opt_ha opts) = false ->
  let run := main project MukProject process_project w opts in
  trace run
  = [EvLog INFO Starting_synchronisation;
     EvLog WARNING Not_on_target_host;
     EvCache NAGIOS_EXIT_WARNING (mkNagiosResult "Not running on the HA master." [])]
  /\ terminate (result run) = Exit_with (ExitNagios NAGIOS_EXIT_WARNING)
  /\ count is_lock_acquire (trace run) = 0
  /\ never is_guarded (trace run).
Proof.
  intros Hn Hha. cbv zeta.
  rewrite (main_stops_in_prologue project MukProject process_project w opts
             [EvLog INFO Starting_synchronisation;
              EvLog WARNING Not_on_target_host;
              EvCache NAGIOS_EXIT_WARNING
                (mkNagiosResult "Not running on the HA master." [])]
             (SystemExit (ExitNagios NAGIOS_EXIT_WARNING))).
  - repeat split.
  - unfold main_prologue. rewrite Hn, Hha. reflexivity.
Qed.

Lemma ha_gate_stops_before_lock_witness :
  let run := main unit no_project no_process_project
               (with_proceed quiet_world (fun _ => false)) plain_options in
  trace run
  = [EvLog INFO Starting_synchronisation;
     EvLog WARNING Not_on_target_host;
     EvCache NAGIOS_EXIT_WARNING (mkNagiosResult "Not running on the HA master." [])]
  /\ terminate (result run) = Exit_with (ExitNagios NAGIOS_EXIT_WARNING)
  /\ count is_lock_acquire (trace run) = 0
  /\ never is_guarded (trace run).
Proof.
  exact (ha_gate_stops_before_lock unit no_project no_process_project
           (with_proceed quiet_world (fun _ => false)) plain_options
           eq_refl eq_refl).
Defined.

Lemma main_outcome_guarded_after_lock w opts projects_ok projects_fail :
  never is_lock_acquire (trace (main_outcome w opts projects_ok projects_fail)).
Proof.
  apply never_count. apply (main_outcome_counts w opts projects_ok projects_fail).
Qed.

(** In every run, each directory query, each timestamp write and each
    release of the lock comes after the call to [lock_or_bork]; the lock is
    asked for at most once; and when [lock_or_bork] does not return, none
    of that work happens at all. *)
Theorem guarded_work_follows_lock
    (project : Type) (MukProject : string -> py project)
    (process_project : options -> project -> py bool)
    (w : world) (opts : options) :
  let run := main project MukProject process_project w opts in
  precedes is_lock_acquire is_guarded (trace run) = true
  /\ count is_lock_acquire (trace run) <= 1
  /\ (forall e, lock_or_bork w = Raises e -> never is_guarded (trace run)).
Proof.
  cbv zeta.
  assert (Hp : forall P, P EvReportAndExit = false ->
                 (forall l m, P (EvLog l m) = false) ->
                 (forall c r, P (EvCache c r) = false) ->
                 (forall p, P (EvLockOrBork p) = false) ->
                 never P (trace (main_prologue w opts)))
    by (intros; apply main_prologue_trace_quiet; assumption).
  assert (Ht : never is_lock_acquire
                 (trace (main_try project MukProject process_project w opts)))
    by (apply main_try_trace_quiet; reflexivity).
  main_cases project MukProject process_project w opts H0 H1;
    unfold trace at 1 2 3; cbn [fst].
  - destruct (main_prologue_returns w opts _ H0) as [-> [_ [_ Hlock]]].
    split; [cbn; apply precedes_from_seen|]. split.
    + unfold trace in Ht at 1. cbn [fst] in Ht.
      apply never_count in Ht.
      rewrite (count_app _ [_; _]), count_app, Ht.
      rewrite (proj1 (never_count _ _)
                 (main_outcome_guarded_after_lock w opts pok pfail)).
      cbn. lia.
    + intros e He. congruence.
  - destruct (main_prologue_returns w opts _ H0) as [-> [_ [_ Hlock]]].
    split; [cbn; apply precedes_from_seen|]. split.
    + unfold trace in Ht at 1. cbn [fst] in Ht.
      apply never_count in Ht.
      rewrite (count_app _ [_; _]), Ht. cbn. lia.
    + intros e He. congruence.
  - unfold trace in Hp. cbn [fst] in Hp.
    assert (Hg : never is_guarded t0) by (apply Hp; reflexivity).
    split; [apply precedes_from_never; exact Hg|]. split.
    + revert H0. unfold main_prologue, call.
      destruct (opt_nagios opts); cbn.
      * destruct (report_and_exit w); cbn; intros H; injection H as <- _;
          cbn; lia.
      * destruct (proceed_on_ha_service w (opt_ha opts)); cbn.
        -- destruct (lock_or_bork w); cbn; intros H; injection H as <-; cbn; lia.
        -- intros H; injection H as <- _; cbn; lia.
    + intros _ _. exact Hg.
Qed.



(** The status of the report cached by lines 197-210: OK exactly when the
    fail count is 0 and either dry-run is on or the timestamp write
    returns; WARNING in every other case; never CRITICAL.  In particular a
    dry run without failures caches OK although nothing was written. *)
Theorem cached_report_status
    (w : world) (opts : options) (projects_ok projects_fail : nat) :
  let t := trace (main_outcome w opts projects_ok projects_fail) in
  let good := Nat.eqb projects_fail 0 && (opt_dry_run opts || write_returns w) in
  count (is_cache_of NAGIOS_EXIT_OK) t = (if good then 1 else 0)
  /\ count (is_cache_of NAGIOS_EXIT_WARNING) t = (if good then 0 else 1)
  /\ count (is_cache_of NAGIOS_EXIT_CRITICAL) t = 0.
Proof.
  cbv zeta.
  pose proof (main_outcome_counts w opts projects_ok projects_fail) as H.
  cbv zeta in H. tauto.
Qed.

(** Whatever the outcome evaluation decided, [release_or_bork] is called
    once, on the script's lock file, with a result whose message has been
    overwritten by "muk projects synchronised, lock release failed" (also
    after a partial failure) and whose metrics are the four counters of
    [result_dict]; the run then finishes the way [release_or_bork] does. *)
Theorem release_receives_overwritten_message
    (w : world) (opts : options) (projects_ok projects_fail : nat) :
  let m := main_outcome w opts projects_ok projects_fail in
  In (EvReleaseOrBork SYNC_MUK_PROJECTS_LOCKFILE
        (mkNagiosResult "muk projects synchronised, lock release failed"
           (result_dict projects_ok projects_fail))) (trace m)
  /\ (forall path r,
        In (EvReleaseOrBork path r) (trace m) ->
        path = SYNC_MUK_PROJECTS_LOCKFILE
        /\ message r = "muk projects synchronised, lock release failed"
        /\ metrics r = result_dict projects_ok projects_fail)
  /\ result m = match release_or_bork w with
                | Returns _ => Returns tt
                | Raises e => Raises e
                end.
Proof.
  cbv zeta. split; [|split; [|apply main_outcome_result]].
  - unfold main_outcome, call. cbv zeta.
    destruct projects_fail as [|n]; cbn [Nat.ltb Nat.leb].
    + destruct (opt_dry_run opts); cbn [negb].
      * cbn. destruct (release_or_bork w); cbn; auto.
      * destruct (write_timestamp w SYNC_TIMESTAMP_FILENAME (convert_timestamp w));
          cbn; destruct (release_or_bork w); cbn; auto 6.
    + cbn. destruct (release_or_bork w); cbn; auto.
  - intros path r. unfold main_outcome, call. cbv zeta.
    destruct projects_fail as [|n]; cbn [Nat.ltb Nat.leb].
    + destruct (opt_dry_run opts); cbn [negb].
      * cbn. destruct (release_or_bork w); cbn; intros H;
          repeat (destruct H as [H|H]; try discriminate H;
                  try (injection H as <- <-; auto)); destruct H.
      * destruct (write_timestamp w SYNC_TIMESTAMP_FILENAME (convert_timestamp w));
          cbn; destruct (release_or_bork w); cbn; intros H;
          repeat (destruct H as [H|H]; try discriminate H;
                  try (injection H as <- <-; auto)); destruct H.
    + cbn. destruct (release_or_bork w); cbn; intros H;
        repeat (destruct H as [H|H]; try discriminate H;
                try (injection H as <- <-; auto)); destruct H.
Qed.

(** [except Exception] (line 182) does not catch what is not an Exception:
    when the body of the [try] is left by KeyboardInterrupt or SystemExit,
    the handler is not entered, nothing more is logged or cached, the lock
    stays unreleased and the run ends with that very exception. *)
Theorem interrupt_bypasses_handler
    (project : Type) (MukProject : string -> py project)
    (process_project : options -> project -> py bool)
    (w : world) (opts : options) (t0 t1 : list event) (e : exn) :
  main_prologue w opts = (t0, Returns tt) ->
  main_try_body project MukProject process_project w opts = (t1, Raises e) ->
  is_Exception e = false ->
  let run := main project MukProject process_project w opts in
  run = (t0 ++ t1, Raises e)
  /\ ~ In (EvLog EXCEPTION Fail_during_synchronisation) (trace run)
  /\ count is_lock_release (trace run) = 0
  /\ count is_cache (trace run) = 0.
Proof.
  intros H0 H1 He. cbv zeta.
  assert (Ht : main_try project MukProject process_project w opts = (t1, Raises e))
    by (unfold main_try, try_except; rewrite H1, He; reflexivity).
  rewrite (main_stops_in_try project MukProject process_project w opts
             t0 t1 e H0 Ht).
  split; [reflexivity|]. unfold trace. cbn [fst].
  destruct (main_prologue_returns w opts t0 H0) as [-> _].
  rewrite main_try_body_cases in H1. unfold main_try_body_table in H1.
  cbv zeta in H1.
  destruct (LdapQuery w) as [[]|e'].
  - destruct (Group_lookup w _) as [[|g gs]|e'].
    + injection H1 as _ <-. discriminate He.
    + destruct (memberUid g); [discriminate H1|].
      injection H1 as _ <-. discriminate He.
    + destruct (is_IndexError e') eqn:Hi.
      * injection H1 as _ <-. discriminate He.
      * injection H1 as <- _. cbn. intuition discriminate.
  - injection H1 as <- _. cbn. intuition discriminate.
Qed.

Lemma interrupt_bypasses_handler_witness :
  let w := with_LdapQuery quiet_world (Raises KeyboardInterrupt) in
  let run := main unit no_project no_process_project w plain_options in
  run = ([EvLog INFO Starting_synchronisation;
          EvLockOrBork SYNC_MUK_PROJECTS_LOCKFILE] ++ [EvLdapQuery],
         Raises KeyboardInterrupt)
  /\ ~ In (EvLog EXCEPTION Fail_during_synchronisation) (trace run)
  /\ count is_lock_release (trace run) = 0
  /\ count is_cache (trace run) = 0.
Proof.
  exact (interrupt_bypasses_handler unit no_project no_process_project
           (with_LdapQuery quiet_world (Raises KeyboardInterrupt)) plain_options
           [EvLog INFO Starting_synchronisation;
            EvLockOrBork SYNC_MUK_PROJECTS_LOCKFILE]
           [EvLdapQuery] KeyboardInterrupt eq_refl eq_refl eq_refl).
Defined.

(** Once a run is past the [try], the way it ends depends on
    [release_or_bork] alone: if that call returns, [main] returns and the
    interpreter exits normally, whatever the fail count, the dry-run option
    and the fate of the timestamp write; a WARNING outcome is visible in
    the cached report only, not in the exit status. *)
Theorem outcome_does_not_change_exit_status
    (project : Type) (MukProject : string -> py project)
    (process_project : options -> project -> py bool)
    (w : world) (opts : options) (t0 t1 : list event) (c : nat * nat) :
  main_prologue w opts = (t0, Returns tt) ->
  main_try project MukProject process_project w opts = (t1, Returns c) ->
  terminate (result (main project MukProject process_project w opts))
  = match release_or_bork w with
    | Returns _ => Exit_normally
    | Raises e => terminate (Raises e)
    end.
Proof.
  intros H0 H1. destruct c as [pok pfail].
  rewrite (main_reaches_outcome project MukProject process_project
             w opts t0 t1 pok pfail H0 H1).
  unfold result at 1. cbn [snd]. rewrite main_outcome_result.
  destruct (release_or_bork w); reflexivity.
Qed.

Lemma outcome_does_not_change_exit_status_witness :
  let w := with_write_timestamp quiet_world (fun _ _ => Raises OSError) in
  terminate (result (main unit no_project no_process_project w plain_options))
  = Exit_normally.
Proof.
  exact (outcome_does_not_change_exit_status unit no_project no_process_project
           (with_write_timestamp quiet_world (fun _ _ => Raises OSError))
           plain_options
           [EvLog INFO Starting_synchronisation;
            EvLockOrBork SYNC_MUK_PROJECTS_LOCKFILE]
           [EvLdapQuery; EvGroupLookup (CnFilter "muk_projects");
            EvLog INFO (Muk_projects "muk_projects")]
           (0, 0) eq_refl eq_refl).
Defined.

(** The only timestamp a run ever writes is the current LDAP timestamp, to
    /var/run/sync_muk_projects.timestamp, and it writes it at most once. *)
Theorem timestamp_write_target
    (project : Type) (MukProject : string -> py project)
    (process_project : options -> project -> py bool)
    (w : world) (opts : options) :
  let run := main project MukProject process_project w opts in
  count is_timestamp_write (trace run) <= 1
  /\ (forall fn ts,
        In (EvWriteTimestamp fn ts) (trace run) ->
        fn = "/var/run/sync_muk_projects.timestamp" /\ ts = convert_timestamp w).
Proof.
  cbv zeta.
  assert (Hp : never is_timestamp_write (trace (main_prologue w opts)))
    by (apply main_prologue_trace_quiet; reflexivity).
  assert (Ht : never is_timestamp_write
                 (trace (main_try project MukProject process_project w opts)))
    by (apply main_try_trace_quiet; reflexivity).
  assert (Hout : forall a b fn ts,
             In (EvWriteTimestamp fn ts) (trace (main_outcome w opts a b)) ->
             fn = "/var/run/sync_muk_projects.timestamp" /\ ts = convert_timestamp w).
  { intros a b fn ts. unfold main_outcome, call. cbv zeta.
    destruct b as [|n]; cbn [Nat.ltb Nat.leb].
    - destruct (opt_dry_run opts); cbn [negb].
      + cbn. destruct (release_or_bork w); cbn; intros H;
          repeat (destruct H as [H|H]; try discriminate H); destruct H.
      + destruct (write_timestamp w SYNC_TIMESTAMP_FILENAME (convert_timestamp w));
          cbn; destruct (release_or_bork w); cbn; intros H;
          repeat (destruct H as [H|H]; try discriminate H;
                  try (injection H as <- <-; auto)); destruct H.
    - cbn. destruct (release_or_bork w); cbn; intros H;
        repeat (destruct H as [H|H]; try discriminate H); destruct H. }
  main_cases project MukProject process_project w opts H0 H1.
  - pose proof (main_outcome_counts w opts pok pfail) as Hc. cbv zeta in Hc.
    destruct Hc as [_ [_ [_ [_ [_ [_ [_ Hw]]]]]]].
    specialize (Hout pok pfail).
    set (tout := trace (main_outcome w opts pok pfail)) in *.
    unfold trace in *. cbn [fst] in *.
    pose proof (proj1 (never_count _ _) Hp) as Hpc.
    pose proof (proj1 (never_count _ _) Ht) as Htc.
    split.
    + rewrite !count_app, Hpc, Htc, Hw.
      destruct (Nat.eqb pfail 0 && negb (opt_dry_run opts)); cbn; lia.
    + intros fn ts Hin. apply in_app_or in Hin. destruct Hin as [Hin|Hin].
      * apply (proj1 (never_In _ _) Hp) in Hin. discriminate Hin.
      * apply in_app_or in Hin. destruct Hin as [Hin|Hin]; [|eauto].
        apply (proj1 (never_In _ _) Ht) in Hin. discriminate Hin.
  - unfold trace in *. cbn [fst] in *.
    pose proof (proj1 (never_count _ _) Hp) as Hpc.
    pose proof (proj1 (never_count _ _) Ht) as Htc.
    split.
    + rewrite count_app, Hpc, Htc. lia.
    + intros fn ts Hin. apply in_app_or in Hin. destruct Hin as [Hin|Hin].
      * apply (proj1 (never_In _ _) Hp) in Hin. discriminate Hin.
      * apply (proj1 (never_In _ _) Ht) in Hin. discriminate Hin.
  - unfold trace in *. cbn [fst] in *.
    pose proof (proj1 (never_count _ _) Hp) as Hpc.
    split.
    + rewrite Hpc. lia.
    + intros fn ts Hin.
      apply (proj1 (never_In _ _) Hp) in Hin. discriminate Hin.
Qed.

(** ** The provisioner and the per-institute driver *)

Lemma entity_trace_provision u s id d :
  In (EvProvision s id d) (entity_trace u) -> id = user_id u /\ d = dry_run u.
Proof.
  unfold entity_trace. intros Hin. apply in_app_or in Hin.
  destruct Hin as [Hin|Hin].
  - apply in_map_iff in Hin. destruct Hin as [s' [Heq _]].
    injection Heq as _ <- <-. auto.
  - destruct (entity_fails u); [|destruct Hin].
    destruct Hin as [Hin|[]]. discriminate Hin.
Qed.

(** Every provisioning call [process] makes belongs to a user of its list
    and runs with the flag [options.dry_run or user.dry_run]: the option
    switches dry-run on for every user, it never switches it off. *)
Theorem dry_run_reaches_every_step
    (opts : options) (users : list MukUser) (s : step) (id : string) (d : bool) :
  In (EvProvision s id d) (trace (process opts users)) ->
  exists u, In u users /\ id = user_id u /\ d = (opt_dry_run opts || dry_run u).
Proof.
  rewrite process_spec. unfold trace. cbn [fst]. intros Hin.
  apply in_flat_map in Hin. destruct Hin as [u' [Hu' Hin]].
  apply in_map_iff in Hu'. destruct Hu' as [u [<- Hu]].
  apply entity_trace_provision in Hin. destruct Hin as [-> ->].
  exists u. split; [exact Hu|].
  unfold with_dry_run. destruct (opt_dry_run opts); split; reflexivity.
Qed.

Lemma dry_run_reaches_every_step_witness :
  exists u,
    In u sample_users
    /\ "vsc40002" = user_id u
    /\ true = (opt_dry_run (mkOptions true false None) || dry_run u).
Proof.
  apply (dry_run_reaches_every_step (mkOptions true false None) sample_users
           populate_scratch_fallback "vsc40002" true).
  cbn. auto 10.
Defined.

(** [process] handles the users one after the other and independently:
    on a concatenated list its events are those of the first part followed
    by those of the second, and its failed list is the concatenation of the
    two failed lists. *)
Theorem process_app (opts : options) (us1 us2 : list MukUser) :
  trace (process opts (us1 ++ us2))
  = trace (process opts us1) ++ trace (process opts us2)
  /\ exists f1 f2,
       result (process opts us1) = Returns f1
       /\ result (process opts us2) = Returns f2
       /\ result (process opts (us1 ++ us2)) = Returns (f1 ++ f2).
Proof.
  rewrite !process_spec. unfold trace, result. cbn [fst snd].
  rewrite map_app, flat_map_app, filter_app.
  split; [reflexivity|]. do 2 eexists. repeat split.
Qed.

(** With the [process] of this file, [process_institute] returns counts
    whenever the lookup returned: ok and fail are non-negative and add up
    to the number of looked-up users, and when the mount check passes fail
    is the number of users one of whose steps raises. *)
Theorem process_institute_counts_add_up
    (w : world) (opts : options) (inst : institute) (f : LdapFilter)
    (users : list MukUser) :
  MukUser_lookup w (AndFilter f (InstituteFilter inst)) = Returns users ->
  exists c,
    result (process_institute w opts inst f) = Returns c
    /\ (ok c + fail c = Z.of_nat (length users))%Z
    /\ (0 <= ok c)%Z /\ (0 <= fail c)%Z
    /\ (forall p,
          result (nfs_home (the_muk w) inst) = Returns p ->
          os_stat w p = Returns tt ->
          fail c = Z.of_nat (length (filter entity_fails
                                        (map (with_dry_run opts) users)))).
Proof.
  intros Hl. unfold process_institute.
  destruct (nfs_home (the_muk w) inst) as [tp [p|k]] eqn:Hn.
  - assert (Hp : result (nfs_home (the_muk w) inst) = Returns p)
      by (rewrite Hn; reflexivity).
    destruct (os_stat w p) as [[]|e] eqn:Hs.
    + rewrite (process_institute_process_returns process w opts inst f users p
                 _ _ Hl Hp Hs (process_spec opts users)).
      eexists. split; [reflexivity|]. cbn [ok fail].
      pose proof (filter_length_le entity_fails (map (with_dry_run opts) users))
        as Hle.
      rewrite length_map in Hle.
      split; [lia|]. split; [lia|]. split; [lia|].
      intros p' Hp' _. reflexivity.
    + rewrite (process_institute_stat_raises process w opts inst f users p e
                 Hl Hp Hs).
      eexists. split; [reflexivity|]. cbn [ok fail].
      repeat split; try lia.
      intros p' Hp' Hs'. unfold result in Hp'. cbn [snd] in Hp'.
      injection Hp' as <-. congruence.
  - assert (Hp : result (nfs_home (the_muk w) inst) = Raises k)
      by (rewrite Hn; reflexivity).
    rewrite (process_institute_no_path process w opts inst f users k Hl Hp).
    eexists. split; [reflexivity|]. cbn [ok fail].
    repeat split; try lia.
    intros p' Hp'. unfold result in Hp'. cbn [snd] in Hp'. discriminate Hp'.
Qed.

Lemma process_institute_counts_add_up_witness :
  exists c,
    result (process_institute quiet_world plain_options GENT users_filter) = Returns c
    /\ (ok c + fail c = Z.of_nat (length sample_users))%Z
    /\ (0 <= ok c)%Z /\ (0 <= fail c)%Z
    /\ (forall p,
          result (nfs_home (the_muk quiet_world) GENT) = Returns p ->
          os_stat quiet_world p = Returns tt ->
          fail c = Z.of_nat (length (filter entity_fails
                                        (map (with_dry_run plain_options)
                                             sample_users)))).
Proof.
  exact (process_institute_counts_add_up quiet_world plain_options GENT
           users_filter sample_users eq_refl).
Defined.

(** An institute without changed users gives ok = 0 and fail = 0 and no
    provisioning call, whether its NFS link can be stat'ed or not: a dead
    mount does not show in the counts when there is nobody to process. *)
Theorem empty_institute_counts_zero
    (w : world) (opts : options) (inst : institute) (f : LdapFilter) :
  MukUser_lookup w (AndFilter f (InstituteFilter inst)) = Returns [] ->
  result (process_institute w opts inst f) = Returns (mkCounts 0 0)
  /\ never is_provision (trace (process_institute w opts inst f)).
Proof.
  intros Hl. unfold process_institute.
  destruct (nfs_home (the_muk w) inst) as [tp [p|k]] eqn:Hn.
  - assert (Hp : result (nfs_home (the_muk w) inst) = Returns p)
      by (rewrite Hn; reflexivity).
    destruct (os_stat w p) as [[]|e] eqn:Hs.
    + rewrite (process_institute_process_returns process w opts inst f [] p
                 [] [] Hl Hp Hs eq_refl).
      split; reflexivity.
    + rewrite (process_institute_stat_raises process w opts inst f [] p e
                 Hl Hp Hs).
      split; reflexivity.
  - assert (Hp : result (nfs_home (the_muk w) inst) = Raises k)
      by (rewrite Hn; reflexivity).
    rewrite (process_institute_no_path process w opts inst f [] k Hl Hp).
    split; reflexivity.
Qed.

Lemma empty_institute_counts_zero_witness :
  let w := with_user_lookup (with_stat quiet_world (fun _ => Raises OSError))
             (fun _ => Returns []) in
  result (process_institute w plain_options GENT users_filter)
  = Returns (mkCounts 0 0)
  /\ never is_provision (trace (process_institute w plain_options GENT users_filter)).
Proof.
  exact (empty_institute_counts_zero
           (with_user_lookup (with_stat quiet_world (fun _ => Raises OSError))
              (fun _ => Returns []))
           plain_options GENT users_filter eq_refl).
Defined.

(** A missing entry in [nfs_link_pathnames] (KeyError at line 60) is handled
    like an unreachable mount: the handler of line 67 logs it, no stat and
    no provisioning call is made, and every looked-up user is counted
    failed. *)
Theorem missing_link_fails_whole_institute
    (w : world) (opts : options) (inst : institute) (f : LdapFilter)
    (users : list MukUser) (k : exn) :
  MukUser_lookup w (AndFilter f (InstituteFilter inst)) = Returns users ->
  result (nfs_home (the_muk w) inst) = Raises k ->
  let r := process_institute w opts inst f in
  result r = Returns (mkCounts 0 (Z.of_nat (length users)))
  /\ count is_mount_check (trace r) = 0
  /\ count is_provision (trace r) = 0
  /\ In (EvLog EXCEPTION (Cannot_process_institute inst)) (trace r).
Proof.
  intros Hl Hp. cbv zeta. unfold process_institute.
  rewrite (process_institute_no_path process w opts inst f users k Hl Hp).
  unfold trace, result. cbn [fst snd]. rewrite Z.sub_diag.
  repeat split. cbn. auto.
Qed.

Lemma missing_link_fails_whole_institute_witness :
  let r := process_institute (with_muk quiet_world muk_without_leuven_link)
             plain_options LEUVEN users_filter in
  result r = Returns (mkCounts 0 3)
  /\ count is_mount_check (trace r) = 0
  /\ count is_provision (trace r) = 0
  /\ In (EvLog EXCEPTION (Cannot_process_institute LEUVEN)) (trace r).
Proof.
  exact (missing_link_fails_whole_institute
           (with_muk quiet_world muk_without_leuven_link)
           plain_options LEUVEN users_filter sample_users (KeyError "leuven")
           eq_refl eq_refl).
Defined.

(** ** The mount scan *)

Lemma force_loop_total_links w muk todo : forall acc,
  (forall i, In i todo -> institute_eqb i BRUSSEL = false ->
             exists p, result (nfs_home muk i) = Returns p) ->
  result (force_nfs_mounts_loop w muk todo acc)
  = Returns (acc ++ filter (mount_kept w muk) todo)
  /\ count is_mount_check (trace (force_nfs_mounts_loop w muk todo acc))
     = length (filter (fun i => negb (institute_eqb i BRUSSEL)) todo).
Proof.
  induction todo as [|inst rest IH]; intros acc Hlinks.
  - cbn. rewrite app_nil_r. split; reflexivity.
  - assert (Hrest : forall i, In i rest -> institute_eqb i BRUSSEL = false ->
                      exists p, result (nfs_home muk i) = Returns p)
      by (intros i Hi; apply Hlinks; right; exact Hi).
    cbn [filter]. unfold mount_kept at 1.
    destruct (institute_eqb inst BRUSSEL) eqn:Hb; cbn [negb andb].
    + destruct inst; try discriminate Hb.
      rewrite force_loop_brussel. unfold trace at 1, result at 1. cbn [fst snd].
      destruct (IH acc Hrest) as [IHr IHc]. split; [exact IHr|].
      unfold count in *. cbn. exact IHc.
    + rewrite (force_loop_other w muk inst rest acc Hb).
      destruct (Hlinks inst (or_introl eq_refl) Hb) as [p Hp]. rewrite Hp.
      unfold stat_returns. destruct (os_stat w p).
      * destruct (IH (acc ++ [inst]) Hrest) as [IHr IHc].
        unfold trace at 1, result at 1. cbn [fst snd]. split.
        -- rewrite IHr, <- app_assoc. reflexivity.
        -- unfold count in *. cbn. rewrite IHc. reflexivity.
      * destruct (IH acc Hrest) as [IHr IHc].
        unfold trace at 1, result at 1. cbn [fst snd]. split; [exact IHr|].
        unfold count in *. cbn. rewrite IHc. reflexivity.
Qed.

(** When every institute other than BRUSSEL has a home link in the table,
    [force_nfs_mounts] returns, in the order of [muk.institutes], exactly
    the institutes other than BRUSSEL whose link can be stat'ed, and it has
    stat'ed each institute other than BRUSSEL once. *)
Theorem force_nfs_mounts_keeps_reachable (w : world) (muk : Muk) :
  (forall i, In i (institutes muk) -> institute_eqb i BRUSSEL = false ->
             exists p, result (nfs_home muk i) = Returns p) ->
  result (force_nfs_mounts w muk)
  = Returns (filter (mount_kept w muk) (institutes muk))
  /\ count is_mount_check (trace (force_nfs_mounts w muk))
     = length (filter (fun i => negb (institute_eqb i BRUSSEL)) (institutes muk)).
Proof.
  intros Hlinks. unfold force_nfs_mounts.
  apply (force_loop_total_links w muk (institutes muk) [] Hlinks).
Qed.

Lemma sample_muk_links i :
  In i (institutes sample_muk) -> institute_eqb i BRUSSEL = false ->
  exists p, result (nfs_home sample_muk i) = Returns p.
Proof. intros _ _. destruct i; eexists; reflexivity. Qed.

Lemma force_nfs_mounts_keeps_reachable_witness :
  result (force_nfs_mounts gent_down_world sample_muk)
  = Returns [ANTWERPEN; LEUVEN]
  /\ count is_mount_check (trace (force_nfs_mounts gent_down_world sample_muk)) = 3.
Proof.
  exact (force_nfs_mounts_keeps_reachable gent_down_world sample_muk
           sample_muk_links).
Defined.

Lemma force_loop_missing_link w muk i post k pre : forall acc,
  (forall j, In j pre -> institute_eqb j BRUSSEL = false ->
             exists p, result (nfs_home muk j) = Returns p) ->
  institute_eqb i BRUSSEL = false ->
  result (nfs_home muk i) = Raises k ->
  result (force_nfs_mounts_loop w muk (pre ++ i :: post) acc) = Raises k
  /\ count is_mount_check (trace (force_nfs_mounts_loop w muk (pre ++ i :: post) acc))
     = length (filter (fun j => negb (institute_eqb j BRUSSEL)) pre).
Proof.
  induction pre as [|inst rest IH]; intros acc Hlinks Hb Hk.
  - cbn [app filter length].
    rewrite (force_loop_other w muk i post acc Hb), Hk. split; reflexivity.
  - assert (Hrest : forall j, In j rest -> institute_eqb j BRUSSEL = false ->
                      exists p, result (nfs_home muk j) = Returns p)
      by (intros j Hj; apply Hlinks; right; exact Hj).
    cbn [app filter].
    destruct (institute_eqb inst BRUSSEL) eqn:Hbi; cbn [negb].
    + destruct inst; try discriminate Hbi.
      rewrite force_loop_brussel. unfold trace at 1, result at 1. cbn [fst snd].
      destruct (IH acc Hrest Hb Hk) as [IHr IHc]. split; [exact IHr|].
      unfold count in *. cbn. exact IHc.
    + rewrite (force_loop_other w muk inst _ acc Hbi).
      destruct (Hlinks inst (or_introl eq_refl) Hbi) as [p Hp]. rewrite Hp.
      destruct (os_stat w p).
      * destruct (IH (acc ++ [inst]) Hrest Hb Hk) as [IHr IHc].
        unfold trace at 1, result at 1. cbn [fst snd]. split; [exact IHr|].
        unfold count in *. cbn. rewrite IHc. reflexivity.
      * destruct (IH acc Hrest Hb Hk) as [IHr IHc].
        unfold trace at 1, result at 1. cbn [fst snd]. split; [exact IHr|].
        unfold count in *. cbn. rewrite IHc. reflexivity.
Qed.

(** The bare [except] of line 112 does not protect against a missing table
    entry: its own log call evaluates the same subscript again.  At the
    first institute other than BRUSSEL without a home link,
    [force_nfs_mounts] raises that KeyError; no institute list is returned
    and the institutes after it are not examined. *)
Theorem force_nfs_mounts_missing_link_raises
    (w : world) (muk : Muk) (pre post : list institute) (i : institute) (k : exn) :
  institutes muk = pre ++ i :: post ->
  (forall j, In j pre -> institute_eqb j BRUSSEL = false ->
             exists p, result (nfs_home muk j) = Returns p) ->
  institute_eqb i BRUSSEL = false ->
  result (nfs_home muk i) = Raises k ->
  result (force_nfs_mounts w muk) = Raises k
  /\ count is_mount_check (trace (force_nfs_mounts w muk))
     = length (filter (fun j => negb (institute_eqb j BRUSSEL)) pre).
Proof.
  intros Hi Hlinks Hb Hk. unfold force_nfs_mounts. rewrite Hi.
  apply force_loop_missing_link; assumption.
Qed.

Lemma muk_without_leuven_link_pre j :
  In j [ANTWERPEN; BRUSSEL; GENT] -> institute_eqb j BRUSSEL = false ->
  exists p, result (nfs_home muk_without_leuven_link j) = Returns p.
Proof.
  intros Hj Hb. destruct j; try discriminate Hb; try (eexists; reflexivity).
  exfalso. cbn in Hj. intuition discriminate.
Qed.

Lemma force_nfs_mounts_missing_link_raises_witness :
  result (force_nfs_mounts quiet_world muk_without_leuven_link)
  = Raises (KeyError "leuven")
  /\ count is_mount_check
       (trace (force_nfs_mounts quiet_world muk_without_leuven_link)) = 2.
Proof.
  exact (force_nfs_mounts_missing_link_raises quiet_world muk_without_leuven_link
           [ANTWERPEN; BRUSSEL; GENT] [] LEUVEN (KeyError "leuven")
           eq_refl muk_without_leuven_link_pre eq_refl eq_refl).
Defined.

Lemma force_loop_only_stats_and_logs w muk todo : forall acc,
  forallb (fun e => is_mount_check e || is_log e)
          (trace (force_nfs_mounts_loop w muk todo acc)) = true.
Proof.
  induction todo as [|inst rest IH]; intros acc.
  - reflexivity.
  - destruct (institute_eqb inst BRUSSEL) eqn:Hb.
    + destruct inst; try discriminate Hb.
      rewrite force_loop_brussel. unfold trace at 1. cbn. apply IH.
    + rewrite (force_loop_other w muk inst rest acc Hb).
      destruct (result (nfs_home muk inst)) as [p|k]; [|reflexivity].
      destruct (os_stat w p); unfold trace at 1; cbn; apply IH.
Qed.

(** [force_nfs_mounts] only looks: whatever the configuration and the
    mounts, it makes no directory query and no provisioning call, caches no
    report, writes no timestamp and does not touch the lock; and it never
    logs at a level other than WARNING (for BRUSSEL) or EXCEPTION. *)
Theorem force_nfs_mounts_only_looks (w : world) (muk : Muk) :
  let t := trace (force_nfs_mounts w muk) in
  never is_directory_lookup t
  /\ never is_provision t
  /\ never is_mutation t
  /\ (forall l m, In (EvLog l m) t -> l = WARNING \/ l = EXCEPTION).
Proof.
  cbv zeta. unfold force_nfs_mounts.
  pose proof (force_loop_only_stats_and_logs w muk (institutes muk) []) as H.
  rewrite forallb_forall in H.
  assert (Hn : forall P, (forall e, P e = true -> is_mount_check e || is_log e = false) ->
                 never P (trace (force_nfs_mounts_loop w muk (institutes muk) []))).
  { intros P HP. apply never_In. intros e He.
    destruct (P e) eqn:Hpe; [|reflexivity].
    apply HP in Hpe. rewrite (H e He) in Hpe. discriminate Hpe. }
  split; [|split; [|split]].
  - apply Hn. intros [] He; try discriminate He; reflexivity.
  - apply Hn. intros [] He; try discriminate He; reflexivity.
  - apply Hn. intros [] He; try discriminate He; reflexivity.
  - clear H Hn. generalize (@nil institute).
    induction (institutes muk) as [|inst rest IH]; intros acc l m Hin.
    + destruct Hin.
    + destruct (institute_eqb inst BRUSSEL) eqn:Hb.
      * destruct inst; try discriminate Hb.
        rewrite force_loop_brussel in Hin. unfold trace at 1 in Hin.
        cbn [fst] in Hin. destruct Hin as [Hin|Hin]; [|eauto].
        injection Hin as <- _. auto.
      * rewrite (force_loop_other w muk inst rest acc Hb) in Hin.
        destruct (result (nfs_home muk inst)) as [p|k]; [|destruct Hin].
        destruct (os_stat w p); unfold trace at 1 in Hin; cbn [fst] in Hin.
        -- destruct Hin as [Hin|Hin]; [discriminate Hin|eauto].
        -- destruct Hin as [Hin|[Hin|Hin]]; [discriminate Hin| |eauto].
           injection Hin as <- _. auto.
Qed.
